(** * k8s-scaffold-meteor: the Pulumi program as a resource graph

    A shallow embedding of the three TypeScript sources of the repository:

    - [src/app.ts]: the [DemoApp] component (deployment and load-balancer
      service), module [App] below;
    - [src/unnamed/part_000]: the storage-aware revision of the same
      component (adds the volume mount, the CPU resources and the horizontal
      pod autoscaler), module [AppStorage] below;
    - [src/index.ts]: the orchestration loop over the configured clusters and
      the [GkeCluster] component (file store, volume, claim, cluster, node
      pool, provider), modules [Index] and [Gke] below.

    JavaScript strings are [string]s holding their UTF-8 bytes, [undefined]
    is [None], a JavaScript number that the program only uses as an integer
    is a [Z], [process.env] is a finite map from names to values, and a
    [pulumi.Output<T>] is a value that depends on what the engine and the
    cloud provider report once the resources exist. *)

From stdpp Require Import gmap strings list pretty.
From Stdlib Require Import ZArith Ascii String Lia.

Open Scope string_scope.
Open Scope Z_scope.

(** ** JavaScript values *)

Module Js.

(** An uncaught exception ends the construction of the program. *)
Inductive Exn :=
| TypeError (msg : string)
| ConfigMissingError (key : string)
| ConfigTypeError (key : string).

Definition Result (A : Type) : Type := Exn + A.

Definition ret {A} (a : A) : Result A := inr a.
Definition throw {A} (e : Exn) : Result A := inl e.
Definition bind {A B} (m : Result A) (k : A -> Result B) : Result B :=
  match m with
  | inl e => inl e
  | inr a => k a
  end.

(** [ToString] of a value that is a string or [undefined]; this is what a
    template literal and [parseInt] apply to their argument. *)
Definition toString (v : option string) : string :=
  match v with
  | Some s => s
  | None => "undefined"
  end.

Definition byte (n : nat) : ascii := ascii_of_nat n.

Definition bytes (l : list nat) : string :=
  foldr (fun n s => String (byte n) s) EmptyString l.

(** The code points that ECMAScript's [TrimString] removes (WhiteSpace and
    LineTerminator), as UTF-8 byte sequences: TAB, LF, VT, FF, CR, SP,
    NBSP, U+1680, U+2000 to U+200A, U+2028, U+2029, U+202F, U+205F, U+3000
    and U+FEFF. *)
Definition whiteSpace : list string :=
  map bytes
    [ [9]; [10]; [11]; [12]; [13]; [32]; [194; 160]; [225; 154; 128];
      [226; 128; 128]; [226; 128; 129]; [226; 128; 130]; [226; 128; 131];
      [226; 128; 132]; [226; 128; 133]; [226; 128; 134]; [226; 128; 135];
      [226; 128; 136]; [226; 128; 137]; [226; 128; 138]; [226; 128; 168];
      [226; 128; 169]; [226; 128; 175]; [226; 129; 159]; [227; 128; 128];
      [239; 187; 191] ]%nat.

Fixpoint stripPrefix (p s : string) : option string :=
  match p, s with
  | EmptyString, _ => Some s
  | String a p', String b s' =>
      if Ascii.eqb a b then stripPrefix p' s' else None
  | String _ _, EmptyString => None
  end.

Definition stripWhiteSpace (s : string) : option string :=
  foldr (fun p acc => match stripPrefix p s with
                      | Some r => Some r
                      | None => acc
                      end) None whiteSpace.

Fixpoint trimStartFuel (fuel : nat) (s : string) : string :=
  match fuel with
  | O => s
  | S fuel' => match stripWhiteSpace s with
               | Some r => trimStartFuel fuel' r
               | None => s
               end
  end.

(** Every stripped code point takes at least one byte, so the length of the
    string is enough fuel. *)
Definition trimStart (s : string) : string :=
  trimStartFuel (String.length s) s.

(** The value of a code unit as a digit in the given radix. *)
Definition digitValue (radix : Z) (c : ascii) : option Z :=
  let n := Z.of_nat (nat_of_ascii c) in
  let v := if (48 <=? n) && (n <=? 57) then Some (n - 48)
           else if (97 <=? n) && (n <=? 122) then Some (n - 87)
           else if (65 <=? n) && (n <=? 90) then Some (n - 55)
           else None in
  match v with
  | Some d => if d <? radix then Some d else None
  | None => None
  end.

(** Reads the longest prefix of digits; [acc] is [None] until a digit has
    been read. *)
Fixpoint parseDigits (radix : Z) (s : string) (acc : option Z) : option Z :=
  match s with
  | EmptyString => acc
  | String c rest =>
      match digitValue radix c with
      | Some d => parseDigits radix rest (Some (default 0 acc * radix + d))
      | None => acc
      end
  end.

Definition splitSign (s : string) : Z * string :=
  match s with
  | String c rest =>
      if Ascii.eqb c "-"%char then (-1, rest)
      else if Ascii.eqb c "+"%char then (1, rest)
      else (1, s)
  | EmptyString => (1, s)
  end.

Definition splitRadix (s : string) : Z * string :=
  match s with
  | String c0 (String c1 rest) =>
      if Ascii.eqb c0 "0"%char && (Ascii.eqb c1 "x"%char || Ascii.eqb c1 "X"%char)
      then (16, rest) else (10, s)
  | _ => (10, s)
  end.

(** [parseInt(string)] with no radix argument: leading white space is
    skipped, then an optional sign, then an optional "0x" or "0X" that
    selects radix 16, then the longest run of digits is read. [None] is
    [NaN]. The integer read is kept exact here; JavaScript rounds it to a
    double beyond 2^53. *)
Definition parseInt (v : option string) : option Z :=
  let s := trimStart (toString v) in
  let '(sign, s) := splitSign s in
  let '(radix, s) := splitRadix s in
  match parseDigits radix s None with
  | Some n => Some (sign * n)
  | None => None
  end.

(** [x || d] on numbers: [NaN], [0] and [-0] are falsy. *)
Definition orElse (x : option Z) (d : Z) : Z :=
  match x with
  | Some 0 => d
  | Some n => n
  | None => d
  end.

End Js.

(** ** The Pulumi resource model *)

Module Pulumi.

(** The resource types the program instantiates. *)
Inductive Kind :=
| DemoAppComponent
| GkeClusterComponent
| Deployment
| Service
| HorizontalPodAutoscaler
| PersistentVolume
| PersistentVolumeClaim
| K8sProvider
| FilestoreInstance
| RandomPassword
| ContainerCluster
| NodePool.

#[export] Instance Kind_eq_dec : EqDecision Kind.
Proof. solve_decision. Defined.

(** A resource is identified by its type and the logical name given as the
    first argument of its constructor. *)
Record Urn := mkUrn { urnKind : Kind; urnName : string }.

#[export] Instance Urn_eq_dec : EqDecision Urn.
Proof. solve_decision. Defined.

(** One entry of [status.loadBalancer.ingress] of a service. *)
Record LoadBalancerIngress := {
  hostname : option string;
  ip : option string;
}.

(** What the engine and the cloud provider report once resources exist. The
    program never computes these values, it only refers to them. *)
Record World := {
  (** the [metadata.name] (or [name]) the engine gives a resource that does
      not declare one: the logical name with a random suffix *)
  physicalName : Urn -> string;
  (** [status.loadBalancer.ingress] of a service *)
  loadBalancerIngress : Urn -> list LoadBalancerIngress;
  (** [networks[i].ipAddresses] of a file store instance *)
  filestoreNetworks : Urn -> list (list string);
  (** [endpoint], [location] and [masterAuth.clusterCaCertificate] of a
      cluster *)
  clusterEndpoint : Urn -> string;
  clusterLocation : Urn -> string;
  clusterCaCertificate : Urn -> string;
  (** [result] of a random password *)
  passwordResult : Urn -> string;
  (** [latestMasterVersion] of [gcp.container.getEngineVersions] *)
  latestMasterVersion : string;
  (** [gcp.config.project] and [gcp.config.zone] *)
  gcpProject : option string;
  gcpZone : option string;
}.

(** A [pulumi.Output<A>]: the resources the value comes from, and the value
    once they exist. *)
Record Output (A : Type) := mkOutput {
  resources : list Urn;
  resolve : World -> A;
}.
Arguments mkOutput {A} _ _.
Arguments resources {A} _.
Arguments resolve {A} _ _.

Definition output {A} (a : A) : Output A := mkOutput [] (fun _ => a).

Definition applyOut {A B} (o : Output A) (f : A -> B) : Output B :=
  mkOutput (resources o) (fun w => f (resolve o w)).

Definition all2 {A B} (a : Output A) (b : Output B) : Output (A * B) :=
  mkOutput (resources a ++ resources b) (fun w => (resolve a w, resolve b w)).

(** [pulumi.interpolate] with two placeholders: the literals and the
    placeholders' [ToString] alternate. *)
Definition interpolate2 (l0 : string) (a : Output string) (l1 : string)
    (b : Output string) (l2 : string) : Output string :=
  applyOut (all2 a b) (fun '(x, y) => l0 +:+ x +:+ l1 +:+ y +:+ l2).

Record ResourceOptions := {
  provider : option Urn;
  parent : option Urn;
  dependsOn : list Urn;
}.

Definition noOptions : ResourceOptions :=
  {| provider := None; parent := None; dependsOn := [] |}.

(** A registered resource: identity, declared [metadata.name] if any, the
    arguments, the options, and the resources whose outputs the arguments
    embed. *)
Record Resource (Args : Type) := mkResource {
  urn : Urn;
  declaredName : option string;
  args : Args;
  opts : ResourceOptions;
  inputs : list Urn;
}.
Arguments mkResource {Args} _ _ _ _ _.
Arguments urn {Args} _.
Arguments declaredName {Args} _.
Arguments args {Args} _.
Arguments opts {Args} _.
Arguments inputs {Args} _.

(** [r.metadata.name] (for a cloud resource, [r.name]). *)
Definition nameOf {Args} (r : Resource Args) : Output string :=
  mkOutput [urn r] (fun w => match declaredName r with
                             | Some n => n
                             | None => physicalName w (urn r)
                             end).

(** What the engine keeps of a registration to order the creations. *)
Record Registration := {
  regUrn : Urn;
  regOpts : ResourceOptions;
  regInputs : list Urn;
}.

Definition register {Args} (r : Resource Args) : Registration :=
  {| regUrn := urn r; regOpts := opts r; regInputs := inputs r |}.

(** The registration a component makes of itself through [super(type, name,
    args, opts)]: the engine is given the options and none of the
    arguments. *)
Definition registerComponent (this : Urn) (opts : ResourceOptions)
    : Registration :=
  {| regUrn := this; regOpts := opts; regInputs := [] |}.

(** The resources that must exist before a resource is created: the explicit
    [dependsOn], the resources its arguments refer to, and its provider. *)
Definition dependencies (r : Registration) : list Urn :=
  dependsOn (regOpts r) ++ regInputs r ++ option_list (provider (regOpts r)).

(** [x] is created before [y] in a creation order. *)
Definition createdBefore (order : list Urn) (x y : Urn) : Prop :=
  exists i j : nat, order !! i = Some x /\ order !! j = Some y /\ (i < j)%nat.

(** A creation order the engine may follow: every registered resource is
    created once, after all that it depends on. *)
Definition validOrder (regs : list Registration) (order : list Urn) : Prop :=
  NoDup order /\
  (forall r, r ∈ regs -> regUrn r ∈ order) /\
  (forall r d, r ∈ regs -> d ∈ dependencies r -> createdBefore order d (regUrn r)).

(** The executable form of [validOrder]. *)
Fixpoint indexOf (x : Urn) (l : list Urn) : option nat :=
  match l with
  | [] => None
  | y :: rest => if bool_decide (x = y) then Some O
                 else option_map S (indexOf x rest)
  end.

Definition createdBeforeb (order : list Urn) (x y : Urn) : bool :=
  match indexOf x order, indexOf y order with
  | Some i, Some j => (i <? j)%nat
  | _, _ => false
  end.

Definition validOrderb (regs : list Registration) (order : list Urn) : bool :=
  bool_decide (NoDup order)
  && forallb (fun r => bool_decide (regUrn r ∈ order)) regs
  && forallb (fun r => forallb (fun d => createdBeforeb order d (regUrn r))
                               (dependencies r)) regs.

End Pulumi.

(** ** Kubernetes objects, with the fields the program sets *)

Module K8s.
Import Pulumi.

Definition Labels := list (string * string).

Record ContainerPort := {
  containerPort : Z;
  portName : string;
}.

Record EnvVar := {
  envName : string;
  envValue : option string;
}.

Record VolumeMount := {
  mountPath : string;
  mountName : string;
}.

Record ResourceRequirements := {
  requestsCpu : string;
  limitsCpu : string;
}.

Record Probe := {
  httpGetPath : string;
  httpGetPort : string;
  initialDelaySeconds : Z;
  timeoutSeconds : Z;
  periodSeconds : Z;
  failureThreshold : Z;
}.

Record Container := {
  containerName : string;
  image : string;
  ports : list ContainerPort;
  env : list EnvVar;
  volumeMounts : list VolumeMount;
  containerResources : option ResourceRequirements;
  livenessProbe : Probe;
  readinessProbe : Probe;
}.

Record Volume := {
  volName : string;
  claimName : Output string;
}.

Record HostAlias := {
  aliasIp : option string;
  hostnames : list string;
}.

Record PodSpec := {
  containers : list Container;
  volumes : list Volume;
  hostAliases : list HostAlias;
}.

Record DeploymentArgs := {
  matchLabels : Labels;
  replicas : Z;
  templateLabels : Labels;
  podSpec : PodSpec;
}.

Record ServicePort := {
  port : Z;
  targetPort : Z;
}.

Record ServiceArgs := {
  loadBalancerIP : option (Output string);
  selector : Labels;
  servicePorts : list ServicePort;
  serviceType : string;
}.

Record HorizontalPodAutoscalerArgs := {
  targetApiVersion : string;
  targetKind : string;
  targetName : Output string;
  minReplicas : Z;
  maxReplicas : Z;
  targetCPUUtilizationPercentage : Z;
}.

Record PersistentVolumeArgs := {
  pvCapacityStorage : string;
  pvAccessModes : list string;
  persistentVolumeReclaimPolicy : string;
  pvStorageClassName : string;
  nfsPath : string;
  nfsServer : Output (option string);
}.

Record PersistentVolumeClaimArgs := {
  pvcStorageClassName : string;
  pvcAccessModes : list string;
  pvcRequestsStorage : string;
  pvcVolumeName : Output string;
}.

Record ProviderArgs := {
  kubeconfig : Output string;
}.

(** [service.status.loadBalancer.ingress[0].f]: a chain of property accesses
    on an output, which yields [undefined] as soon as one link is missing. *)
Definition ingressField (f : LoadBalancerIngress -> option string)
    (service : Resource ServiceArgs) : Output (option string) :=
  mkOutput [urn service]
    (fun w => match loadBalancerIngress w (urn service) !! 0%nat with
              | Some i => f i
              | None => None
              end).

(** [service.spec.ports[0].port]: the cluster reports the ports as they were
    declared. *)
Definition firstPort (service : Resource ServiceArgs) : Output (option Z) :=
  mkOutput [urn service]
    (fun _ => match servicePorts (args service) !! 0%nat with
              | Some p => Some (port p)
              | None => None
              end).

End K8s.

(** ** The module-level constants and the address rule of the app component

    [src/app.ts] lines 25 to 42 and 107 to 113 and [src/unnamed/part_000]
    lines 26 to 43 and 164 to 170 are the same text; they are embedded
    once. *)

Module AppCommon.
Import Pulumi K8s.

(** [process.env]. *)
Abbreviation Env := (gmap string string).

Definition environmentVariableNames : list string :=
  [ "MAIL_URL"; "ROOT_URL"; "MONGO_URL"; "STORAGE_PATH"; "TZ"; "PORT";
    "REFRESH_STATIC_PROFILES"; "REFRESH_PERMISSIONS"; "EMAIL_SERVICES" ].

Definition environmentVariables (processEnv : Env) : list EnvVar :=
  map (fun envName => {| envName := envName; envValue := processEnv !! envName |})
      environmentVariableNames.

Definition APP_PORT (processEnv : Env) : Z :=
  Js.orElse (Js.parseInt (processEnv !! "PORT")) 3000.

Definition DATABASE_IP_ADDRESS (processEnv : Env) : option string :=
  processEnv !! "DATABASE_IP_ADDRESS".

Definition appLabels : Labels := [("app", "scaffold")].

Definition livenessProbe : Probe :=
  {| httpGetPath := "/api"; httpGetPort := "http"; initialDelaySeconds := 5;
     timeoutSeconds := 1; periodSeconds := 10; failureThreshold := 3 |}.

Definition readinessProbe : Probe :=
  {| httpGetPath := "/api/v1"; httpGetPort := "http"; initialDelaySeconds := 5;
     timeoutSeconds := 1; periodSeconds := 10; failureThreshold := 3 |}.

Definition hostAliases (processEnv : Env) : list HostAlias :=
  [ {| aliasIp := DATABASE_IP_ADDRESS processEnv;
       hostnames := ["mongo-primary"; "mongo-secondary"; "mongo-arbiter"] |} ].

(** The service, [${name}-scaffold-app]. *)
Definition service (processEnv : Env) (name : string) (prov : Urn)
    (staticAppIP : option (Output string)) (this : Urn) : Resource ServiceArgs :=
  mkResource (mkUrn Service (name +:+ "-scaffold-app")) None
    {| loadBalancerIP := staticAppIP;
       selector := appLabels;
       servicePorts := [ {| port := 80; targetPort := APP_PORT processEnv |} ];
       serviceType := "LoadBalancer" |}
    {| provider := Some prov; parent := Some this; dependsOn := [] |}
    (match staticAppIP with Some o => resources o | None => [] end).

(** The address appears in different places depending on the Kubernetes
    service provider. *)
Definition address (name : string) (service : Resource ServiceArgs)
    : Output (option string) :=
  let address := ingressField hostname service in
  if bool_decide (name = "gke") || bool_decide (name = "aks")
  then ingressField ip service
  else address.

(** [ToString] of a number that may be [undefined]. *)
Definition numberToString (n : option Z) : string :=
  match n with
  | Some z => pretty z
  | None => "undefined"
  end.

Definition appUrl (name : string) (service : Resource ServiceArgs)
    : Output string :=
  interpolate2 "http://" (applyOut (address name service) Js.toString)
               ":" (applyOut (firstPort service) numberToString) "".

End AppCommon.

(** ** [src/app.ts] *)

Module App.
Import Pulumi K8s AppCommon.

Record DemoAppArgs := {
  provider : Urn;
  imageTag : string;
  staticAppIP : option (Output string);
}.

Record DemoApp := {
  this : Urn;
  deployment : Resource DeploymentArgs;
  service : Resource ServiceArgs;
  appUrl : Output string;
}.

Definition deploymentArgs (processEnv : Env) (args : DemoAppArgs)
    : DeploymentArgs :=
  {| matchLabels := appLabels;
     replicas := 2;
     templateLabels := appLabels;
     podSpec :=
       {| containers :=
            [ {| containerName := "scaffold";
                 image := "docker.io/diavrank/scaffold-meteor-vue:" +:+ imageTag args;
                 ports := [ {| containerPort := APP_PORT processEnv; portName := "http" |} ];
                 env := environmentVariables processEnv;
                 volumeMounts := [];
                 containerResources := None;
                 K8s.livenessProbe := AppCommon.livenessProbe;
                 K8s.readinessProbe := AppCommon.readinessProbe |} ];
          volumes := [];
          K8s.hostAliases := AppCommon.hostAliases processEnv |} |}.

(** [new DemoApp(name, args)]. *)
Definition new (processEnv : Env) (name : string) (args : DemoAppArgs)
    : DemoApp :=
  let this := mkUrn DemoAppComponent name in
  let deployment :=
    mkResource (mkUrn Deployment (name +:+ "-scaffold-app")) None
      (deploymentArgs processEnv args)
      {| Pulumi.provider := Some (provider args); parent := Some this;
         dependsOn := [] |}
      [] in
  let service :=
    AppCommon.service processEnv name (provider args) (staticAppIP args) this in
  {| this := this;
     deployment := deployment;
     service := service;
     appUrl := AppCommon.appUrl name service |}.

End App.

(** ** [src/unnamed/part_000]: the component with storage and autoscaling *)

Module AppStorage.
Import Pulumi K8s AppCommon.

(** [pvc] is declared mandatory ([pvc: k8s.core.v1.PersistentVolumeClaim]).
    Types are erased when the program runs, so the field is an option here:
    [None] is a call that leaves the field out, and the constructor then
    fails where it reads [args.pvc.metadata]. *)
Record DemoAppArgs := {
  provider : Urn;
  imageTag : string;
  staticAppIP : option (Output string);
  pvc : option (Resource PersistentVolumeClaimArgs);
}.

Record DemoApp := {
  this : Urn;
  deployment : Resource DeploymentArgs;
  hpa : Resource HorizontalPodAutoscalerArgs;
  service : Resource ServiceArgs;
  appUrl : Output string;
}.

(** [args.pvc.metadata.name]. *)
Definition pvcName (args : DemoAppArgs) : Js.Result (Output string) :=
  match pvc args with
  | Some claim => Js.ret (nameOf claim)
  | None =>
      Js.throw (Js.TypeError
        "Cannot read properties of undefined (reading 'metadata')")
  end.

Definition deploymentArgs (processEnv : Env) (args : DemoAppArgs)
    (claim : Output string) : DeploymentArgs :=
  {| matchLabels := appLabels;
     replicas := 2;
     templateLabels := appLabels;
     podSpec :=
       {| containers :=
            [ {| containerName := "scaffold";
                 image := "docker.io/diavrank/scaffold-meteor-vue:" +:+ imageTag args;
                 ports := [ {| containerPort := APP_PORT processEnv; portName := "http" |} ];
                 env := environmentVariables processEnv;
                 volumeMounts :=
                   [ {| mountPath := "/opt/app-files"; mountName := "app-volume" |} ];
                 containerResources :=
                   Some {| requestsCpu := "250m"; limitsCpu := "400m" |};
                 K8s.livenessProbe := AppCommon.livenessProbe;
                 K8s.readinessProbe := AppCommon.readinessProbe |} ];
          volumes := [ {| volName := "app-volume"; claimName := claim |} ];
          K8s.hostAliases := AppCommon.hostAliases processEnv |} |}.

(** [new DemoApp(name, args)]. The arguments of the deployment are evaluated
    before the deployment is registered, so a failure there leaves no
    resource of the component behind. *)
Definition new (processEnv : Env) (name : string) (args : DemoAppArgs)
    : Js.Result DemoApp :=
  let this := mkUrn DemoAppComponent name in
  Js.bind (pvcName args) (fun claim =>
  let deployment :=
    mkResource (mkUrn Deployment (name +:+ "-scaffold-app")) None
      (deploymentArgs processEnv args claim)
      {| Pulumi.provider := Some (provider args); parent := Some this;
         dependsOn := [] |}
      (resources claim) in
  let hpa :=
    mkResource (mkUrn HorizontalPodAutoscaler "scaffold-app-hpa")
      (Some "scaffold-app-hpa")
      {| targetApiVersion := "apps/v1";
         targetKind := "Deployment";
         targetName := nameOf deployment;
         minReplicas := 2;
         maxReplicas := 4;
         targetCPUUtilizationPercentage := 90 |}
      noOptions
      (resources (nameOf deployment)) in
  let service :=
    AppCommon.service processEnv name (provider args) (staticAppIP args) this in
  Js.ret {| this := this;
            deployment := deployment;
            hpa := hpa;
            service := service;
            appUrl := AppCommon.appUrl name service |}).

(** The registrations, in the order of the constructor: the component
    itself first ([opts] is left at its default, the empty options), then its
    three resources. *)
Definition registrations (app : DemoApp) : list Registration :=
  [ registerComponent (this app) noOptions;
    register (deployment app); register (hpa app); register (service app) ].

End AppStorage.

(** ** [src/index.ts], second part: the GKE cluster component *)

Module Gke.
Import Pulumi K8s.

(** The stack configuration read through [pulumi.Config]: a value is kept
    as the number it parses to when it parses to one, as text otherwise.
    Numbers are integers here; a size with a fraction is not represented. *)
Inductive ConfigValue :=
| ConfigNumber (n : Z)
| ConfigText (s : string).

Abbreviation Config := (gmap string ConfigValue).

(** [config.requireNumber(key)]. *)
Definition requireNumber (config : Config) (key : string) : Js.Result Z :=
  match config !! key with
  | Some (ConfigNumber n) => Js.ret n
  | Some (ConfigText _) => Js.throw (Js.ConfigTypeError key)
  | None => Js.throw (Js.ConfigMissingError key)
  end.

Record FileShares := {
  shareName : string;
  capacityGb : Z;
}.

Record FilestoreArgs := {
  tier : string;
  fileShares : FileShares;
  networkName : string;
  networkModes : list string;
  filestoreLocation : string;
}.

Record RandomPasswordArgs := {
  passwordLength : Z;
  special : bool;
}.

Record ClusterArgs := {
  clusterInitialNodeCount : Z;
  removeDefaultNodePool : bool;
  deletionProtection : bool;
  minMasterVersion : Output string;
}.

Record NodePoolArgs := {
  poolCluster : Output string;
  poolInitialNodeCount : Z;
  poolLocation : Output string;
  preemptible : bool;
  machineType : string;
  oauthScopes : list string;
  poolVersion : Output string;
  minNodeCount : Z;
  maxNodeCount : Z;
  autoRepair : bool;
}.

Record GkeCluster := {
  this : Urn;
  fileStoreInstance : Resource FilestoreArgs;
  persistentVolume : Resource PersistentVolumeArgs;
  persistentVolumeClaim : Resource PersistentVolumeClaimArgs;
  password : Resource RandomPasswordArgs;
  cluster : Resource ClusterArgs;
  nodePool : Resource NodePoolArgs;
  provider : Resource ProviderArgs;
}.

(** [`${diskSize}Gi`]: the decimal digits of the size, then "Gi". This is
    what the template literal prints for a size that is an integer of
    magnitude at most 2^53; beyond that a JavaScript number is rounded, and
    from 10^21 on it is printed with an exponent, which this definition does
    not follow. The properties that read the digits carry that bound. *)
Definition gibibytes (diskSize : Z) : string := pretty diskSize +:+ "Gi".

(** [gcp.container.getEngineVersions(...).then(v => v.latestMasterVersion)]:
    a promise of a function call, which comes from no resource. *)
Definition engineVersion : Output string :=
  mkOutput [] latestMasterVersion.

Definition newline : string := String (Js.byte 10) EmptyString.

Definition unlines (ls : list string) : string :=
  foldr (fun l s => l +:+ newline +:+ s) "" ls.

(** The GKE-style kubeconfig, which authenticates through the gcloud plugin
    rather than with a client certificate and key. *)
Definition k8sConfig (k8sCluster : Resource ClusterArgs) : Output string :=
  mkOutput [urn k8sCluster; urn k8sCluster; urn k8sCluster]
    (fun w =>
       let name := resolve (nameOf k8sCluster) w in
       let endpoint := clusterEndpoint w (urn k8sCluster) in
       let context :=
         Js.toString (gcpProject w) +:+ "_" +:+ Js.toString (gcpZone w)
         +:+ "_" +:+ name in
       unlines
         [ "apiVersion: v1";
           "clusters:";
           "- cluster:";
           "    certificate-authority-data: " +:+ clusterCaCertificate w (urn k8sCluster);
           "    server: https://" +:+ endpoint;
           "  name: " +:+ context;
           "contexts:";
           "- context:";
           "    cluster: " +:+ context;
           "    user: " +:+ context;
           "  name: " +:+ context;
           "current-context: " +:+ context;
           "kind: Config";
           "preferences: {}";
           "users:";
           "- name: " +:+ context;
           "  user:";
           "    exec:";
           "      apiVersion: client.authentication.k8s.io/v1beta1";
           "      command: gke-gcloud-auth-plugin";
           "      installHint: Install gke-gcloud-auth-plugin for use with kubectl by following";
           "        https://cloud.google.com/blog/products/containers-kubernetes/kubectl-auth-changes-in-gke";
           "      provideClusterInfo: true" ]).

(** [new GkeCluster(name)]. *)
Definition new (config : Config) (name : string) : Js.Result GkeCluster :=
  let this := mkUrn GkeClusterComponent name in
  Js.bind (requireNumber config "filesVolumeSize") (fun diskSize =>
  let diskName := "appDisk" in
  let fileStoreInstance :=
    mkResource (mkUrn FilestoreInstance "nfs-instance") None
      {| tier := "STANDARD";
         fileShares := {| shareName := diskName; capacityGb := diskSize |};
         networkName := "default";
         networkModes := ["MODE_IPV4"];
         filestoreLocation := "us-central1-a" |}
      noOptions [] in
  let storageClassName := "standard" in
  let persistentVolume :=
    mkResource (mkUrn PersistentVolume "app-pv") None
      {| pvCapacityStorage := gibibytes diskSize;
         pvAccessModes := ["ReadWriteMany"];
         persistentVolumeReclaimPolicy := "Retain";
         pvStorageClassName := storageClassName;
         nfsPath := "/" +:+ diskName;
         nfsServer :=
           mkOutput [urn fileStoreInstance]
             (fun w => match filestoreNetworks w (urn fileStoreInstance) !! 0%nat with
                       | Some ipAddresses => ipAddresses !! 0%nat
                       | None => None
                       end) |}
      noOptions [urn fileStoreInstance] in
  let persistentVolumeClaim :=
    mkResource (mkUrn PersistentVolumeClaim "app-pvc") None
      {| pvcStorageClassName := storageClassName;
         pvcAccessModes := ["ReadWriteMany"];
         pvcRequestsStorage := gibibytes diskSize;
         pvcVolumeName := nameOf persistentVolume |}
      noOptions (resources (nameOf persistentVolume)) in
  let password :=
    mkResource (mkUrn RandomPassword "password") None
      {| passwordLength := 20; special := true |}
      {| Pulumi.provider := None; parent := Some this; dependsOn := [] |} [] in
  let k8sCluster :=
    mkResource (mkUrn ContainerCluster "cluster") None
      {| clusterInitialNodeCount := 1;
         removeDefaultNodePool := true;
         deletionProtection := false;
         minMasterVersion := engineVersion |}
      {| Pulumi.provider := None; parent := Some this; dependsOn := [] |}
      (resources engineVersion) in
  let nodePool :=
    mkResource (mkUrn NodePool "primary-node-pool") None
      {| poolCluster := nameOf k8sCluster;
         poolInitialNodeCount := 2;
         poolLocation :=
           mkOutput [urn k8sCluster] (fun w => clusterLocation w (urn k8sCluster));
         preemptible := true;
         machineType := "n1-standard-1";
         oauthScopes :=
           [ "https://www.googleapis.com/auth/compute";
             "https://www.googleapis.com/auth/devstorage.read_only";
             "https://www.googleapis.com/auth/logging.write";
             "https://www.googleapis.com/auth/monitoring" ];
         poolVersion := engineVersion;
         minNodeCount := 2;
         maxNodeCount := 3;
         autoRepair := true |}
      {| Pulumi.provider := None; parent := None; dependsOn := [urn k8sCluster] |}
      (resources (nameOf k8sCluster) ++ [urn k8sCluster] ++ resources engineVersion) in
  let provider :=
    mkResource (mkUrn K8sProvider "gke") None
      {| kubeconfig := k8sConfig k8sCluster |}
      {| Pulumi.provider := None; parent := Some this; dependsOn := [urn nodePool] |}
      (resources (k8sConfig k8sCluster)) in
  Js.ret {| this := this;
            fileStoreInstance := fileStoreInstance;
            persistentVolume := persistentVolume;
            persistentVolumeClaim := persistentVolumeClaim;
            password := password;
            cluster := k8sCluster;
            nodePool := nodePool;
            provider := provider |}).

(** The registrations, in the order of the constructor: the component
    itself first (the program passes the empty options), then its seven
    resources. *)
Definition registrations (g : GkeCluster) : list Registration :=
  [ registerComponent (this g) noOptions;
    register (fileStoreInstance g); register (persistentVolume g);
    register (persistentVolumeClaim g); register (password g);
    register (cluster g); register (nodePool g); register (provider g) ].

End Gke.

(** ** [src/index.ts], first part: the orchestration

    [index.ts] passes [pvc] to the component, so the component it
    instantiates is the one of [src/unnamed/part_000]. *)

Module Index.
Import Pulumi K8s AppCommon.

Record Cluster := {
  name : string;
  provider : Resource ProviderArgs;
  staticAppIP : option (Output string);
  pvc : Resource PersistentVolumeClaimArgs;
}.

Record AppUrl := {
  urlName : string;
  url : Output string;
}.

(** [process.env.IMAGE_TAG || 'latest']: the empty string is falsy. *)
Definition appImageTag (processEnv : Env) : string :=
  match processEnv !! "IMAGE_TAG" with
  | Some EmptyString => "latest"
  | Some tag => tag
  | None => "latest"
  end.

(** The body of [for (const cluster of clusters)], from the state
    [appUrls] reached so far; [instances] records the components created. *)
Fixpoint deploy (processEnv : Env) (clusters : list Cluster)
    (appUrls : list AppUrl) (instances : list AppStorage.DemoApp)
    : Js.Result (list AppUrl * list AppStorage.DemoApp) :=
  match clusters with
  | [] => Js.ret (appUrls, instances)
  | cluster :: rest =>
      Js.bind
        (AppStorage.new processEnv (name cluster)
           {| AppStorage.provider := urn (provider cluster);
              AppStorage.imageTag := appImageTag processEnv;
              AppStorage.staticAppIP := staticAppIP cluster;
              AppStorage.pvc := Some (pvc cluster) |})
        (fun instance =>
           let instanceUrl :=
             {| urlName := name cluster; url := AppStorage.appUrl instance |} in
           deploy processEnv rest (appUrls ++ [instanceUrl])
                  (instances ++ [instance]))
  end.

(** The clusters the program lists: the GKE one. *)
Definition clusters (gkeCluster : Gke.GkeCluster) : list Cluster :=
  [ {| name := "gke";
       provider := Gke.provider gkeCluster;
       staticAppIP := None;
       pvc := Gke.persistentVolumeClaim gkeCluster |} ].

Record Program := {
  gkeCluster : Gke.GkeCluster;
  instances : list AppStorage.DemoApp;
  appUrls : list AppUrl;
}.

(** The whole module, run from the top. *)
Definition main (config : Gke.Config) (processEnv : Env) : Js.Result Program :=
  Js.bind (Gke.new config "multicloud") (fun gkeCluster =>
  Js.bind (deploy processEnv (clusters gkeCluster) [] []) (fun '(appUrls, instances) =>
  Js.ret {| gkeCluster := gkeCluster;
            instances := instances;
            appUrls := appUrls |})).

Definition registrations (p : Program) : list Registration :=
  Gke.registrations (gkeCluster p)
  ++ flat_map AppStorage.registrations (instances p).

End Index.

(** ** Definitions that follow the words of the specification *)

Module Spec.
Import Pulumi K8s AppCommon.

(** The order in which the targets' deferred resolutions complete, when the
    resolution of target [n] completes at time [finish n]: the entries sorted
    by completion time. *)
Fixpoint insertByFinish (finish : string -> nat) (x : Index.AppUrl)
    (l : list Index.AppUrl) : list Index.AppUrl :=
  match l with
  | [] => [x]
  | y :: rest =>
      if (finish (Index.urlName x) <? finish (Index.urlName y))%nat
      then x :: l
      else y :: insertByFinish finish x rest
  end.

Definition completionOrder (finish : string -> nat) (l : list Index.AppUrl)
    : list Index.AppUrl :=
  foldl (fun done x => insertByFinish finish x done) [] l.

(** A value that is a decimal numeral: one or more of the digits 0 to 9. *)
Definition isDigit (c : ascii) : bool :=
  (48 <=? nat_of_ascii c)%nat && (nat_of_ascii c <=? 57)%nat.

Fixpoint allDigits (s : string) : bool :=
  match s with
  | EmptyString => true
  | String c rest => isDigit c && allDigits rest
  end.

Definition isNumeral (s : string) : bool :=
  match s with
  | EmptyString => false
  | String _ _ => allDigits s
  end.

(** The number a decimal numeral denotes. *)
Fixpoint numeralValueFrom (acc : Z) (s : string) : Z :=
  match s with
  | EmptyString => acc
  | String c rest =>
      numeralValueFrom (10 * acc + (Z.of_nat (nat_of_ascii c) - 48)) rest
  end.

Definition numeralValue (s : string) : Z := numeralValueFrom 0 s.

(** The environment bag of the workload, as the specification words it: an
    entry for a name exactly when the name is whitelisted. *)
Definition forwards (bag : list EnvVar) (n : string) : Prop :=
  exists v, {| envName := n; envValue := v |} ∈ bag.

End Spec.

(** ** Concrete inputs used below *)

Module Samples.
Import Pulumi K8s AppCommon.

(** A world in which every load balancer reports both fields. *)
Definition world : World :=
  {| physicalName := fun u => urnName u +:+ "-1a2b3c4";
     loadBalancerIngress :=
       fun _ => [ {| hostname := Some "lb.example.com"; ip := Some "10.0.0.5" |} ];
     filestoreNetworks := fun _ => [ ["10.1.0.2"] ];
     clusterEndpoint := fun _ => "34.0.0.1";
     clusterLocation := fun _ => "us-central1-a";
     clusterCaCertificate := fun _ => "LS0tCg==";
     passwordResult := fun _ => "secret";
     latestMasterVersion := "1.29.1-gke.100";
     gcpProject := Some "demo";
     gcpZone := Some "us-central1-a" |}.

(** A world in which the load balancer reports a host name only. *)
Definition hostnameWorld : World :=
  {| physicalName := physicalName world;
     loadBalancerIngress :=
       fun _ => [ {| hostname := Some "lb.example.com"; ip := None |} ];
     filestoreNetworks := filestoreNetworks world;
     clusterEndpoint := clusterEndpoint world;
     clusterLocation := clusterLocation world;
     clusterCaCertificate := clusterCaCertificate world;
     passwordResult := passwordResult world;
     latestMasterVersion := latestMasterVersion world;
     gcpProject := gcpProject world;
     gcpZone := gcpZone world |}.

Definition config : Gke.Config :=
  {[ "filesVolumeSize" := Gke.ConfigNumber 1024 ]}.

Definition providerOf (name : string) : Resource ProviderArgs :=
  mkResource (mkUrn K8sProvider name) None
    {| kubeconfig := output "apiVersion: v1" |} noOptions [].

Definition claim : Resource PersistentVolumeClaimArgs :=
  mkResource (mkUrn PersistentVolumeClaim "app-pvc") None
    {| pvcStorageClassName := "standard";
       pvcAccessModes := ["ReadWriteMany"];
       pvcRequestsStorage := "1024Gi";
       pvcVolumeName := output "app-pv-1a2b3c4" |}
    noOptions [].

Definition appArgs : App.DemoAppArgs :=
  {| App.provider := urn (providerOf "gke");
     App.imageTag := "latest";
     App.staticAppIP := None |}.

Definition storageArgs : AppStorage.DemoAppArgs :=
  {| AppStorage.provider := urn (providerOf "gke");
     AppStorage.imageTag := "latest";
     AppStorage.staticAppIP := None;
     AppStorage.pvc := Some claim |}.

(** The same call with the claim left out. *)
Definition noClaimArgs : AppStorage.DemoAppArgs :=
  {| AppStorage.provider := urn (providerOf "gke");
     AppStorage.imageTag := "latest";
     AppStorage.staticAppIP := None;
     AppStorage.pvc := None |}.

(** Two targets, declared GKE first. *)
Definition twoClusters : list Index.Cluster :=
  [ {| Index.name := "gke"; Index.provider := providerOf "gke";
       Index.staticAppIP := None; Index.pvc := claim |};
    {| Index.name := "eks"; Index.provider := providerOf "eks";
       Index.staticAppIP := None; Index.pvc := claim |} ].

(** Completion times under which the second target resolves first. *)
Definition eksFirst (name : string) : nat :=
  if String.eqb name "gke" then 2%nat else 1%nat.

(** The order of the registrations of the program. *)
Definition registrationOrder : list Urn :=
  [ mkUrn GkeClusterComponent "multicloud";
    mkUrn FilestoreInstance "nfs-instance";
    mkUrn PersistentVolume "app-pv";
    mkUrn PersistentVolumeClaim "app-pvc";
    mkUrn RandomPassword "password";
    mkUrn ContainerCluster "cluster";
    mkUrn NodePool "primary-node-pool";
    mkUrn K8sProvider "gke";
    mkUrn DemoAppComponent "gke";
    mkUrn Deployment "gke-scaffold-app";
    mkUrn HorizontalPodAutoscaler "scaffold-app-hpa";
    mkUrn Service "gke-scaffold-app" ].

End Samples.

(** ** Executable checks on the registrations of a program *)

Module Graph.
Import Pulumi.

(** [x] is among the dependencies of the resource registered as [y]. *)
Definition edgeb (regs : list Registration) (x y : Urn) : bool :=
  existsb (fun r => bool_decide (regUrn r = y)
                    && bool_decide (x ∈ dependencies r)) regs.

(** The registrations of the program as written; they are the same for every
    configuration that holds a volume size and every process environment. *)
Definition programRegistrations : list Registration :=
  match Index.main Samples.config ∅ with
  | inr p => Index.registrations p
  | inl _ => []
  end.

End Graph.

(** * Properties *)

(** ** [parseInt] on concrete values *)

Example parseInt_8080 : Js.parseInt (Some "8080") = Some 8080.
Proof. reflexivity. Qed.

Example parseInt_prefix : Js.parseInt (Some "  12abc") = Some 12.
Proof. reflexivity. Qed.

Example parseInt_hex : Js.parseInt (Some "0x1F") = Some 31.
Proof. reflexivity. Qed.

Example parseInt_neg : Js.parseInt (Some "-42px") = Some (-42).
Proof. reflexivity. Qed.

Example parseInt_nan : Js.parseInt (Some "http") = None.
Proof. reflexivity. Qed.

Example parseInt_0x : Js.parseInt (Some "0x") = None.
Proof. reflexivity. Qed.

Example parseInt_undefined : Js.parseInt None = None.
Proof. reflexivity. Qed.

(** ** [trimStart] has fuel enough *)

Section TrimStart.
Import Js.

Lemma stripPrefix_length p : forall s r,
  stripPrefix p s = Some r ->
  String.length s = (String.length p + String.length r)%nat.
Proof.
  induction p as [|a p IH]; intros s r.
  - destruct s; cbn; intros [= <-]; reflexivity.
  - destruct s as [|b s]; cbn; [discriminate |].
    destruct (Ascii.eqb a b); [| discriminate].
    intros H. apply IH in H. lia.
Qed.

Lemma stripAny_shorter (prefixes : list string) s r :
  Forall (fun p => (0 < String.length p)%nat) prefixes ->
  foldr (fun p acc => match stripPrefix p s with
                      | Some r => Some r
                      | None => acc
                      end) None prefixes = Some r ->
  (String.length r < String.length s)%nat.
Proof.
  induction 1 as [|p prefixes Hp _ IH]; cbn; [discriminate |].
  destruct (stripPrefix p s) as [r' |] eqn:Hstrip; [| exact IH].
  intros [= <-]. apply stripPrefix_length in Hstrip. lia.
Qed.

Lemma stripWhiteSpace_shorter s r :
  stripWhiteSpace s = Some r -> (String.length r < String.length s)%nat.
Proof.
  apply stripAny_shorter. unfold whiteSpace.
  repeat (constructor; [cbn; lia |]). constructor.
Qed.

Lemma trimStartFuel_done fuel : forall s,
  (String.length s <= fuel)%nat ->
  stripWhiteSpace (trimStartFuel fuel s) = None.
Proof.
  induction fuel as [|fuel IH]; intros s Hlen.
  - destruct s; [reflexivity | cbn in Hlen; lia].
  - cbn [trimStartFuel].
    destruct (stripWhiteSpace s) as [r |] eqn:Hstrip; [| exact Hstrip].
    apply IH. apply stripWhiteSpace_shorter in Hstrip. lia.
Qed.

(** Nothing is left to strip from what [trimStart] returns. *)
Lemma trimStart_done s : stripWhiteSpace (trimStart s) = None.
Proof. apply trimStartFuel_done. reflexivity. Qed.

End TrimStart.

(** ** [parseInt] on decimal numerals *)

Section ParseIntNumerals.
Import Js Spec.

Lemma stripWhiteSpace_digit c rest :
  isDigit c = true -> stripWhiteSpace (String c rest) = None.
Proof.
  destruct c as [[] [] [] [] [] [] [] []]; intros Hd;
    solve [ discriminate Hd | reflexivity ].
Qed.

Lemma trimStart_digit c rest :
  isDigit c = true -> trimStart (String c rest) = String c rest.
Proof.
  intros Hd. unfold trimStart. cbn [String.length trimStartFuel].
  now rewrite (stripWhiteSpace_digit c rest Hd).
Qed.

Lemma splitSign_digit c rest :
  isDigit c = true -> splitSign (String c rest) = (1, String c rest).
Proof.
  destruct c as [[] [] [] [] [] [] [] []]; intros Hd;
    solve [ discriminate Hd | reflexivity ].
Qed.

Lemma splitRadix_digits s :
  allDigits s = true -> splitRadix s = (10, s).
Proof.
  destruct s as [|c0 [|c1 rest]]; [reflexivity | reflexivity |].
  cbn [allDigits]. intros H.
  apply andb_prop in H as [_ H]. apply andb_prop in H as [H1 _].
  unfold splitRadix.
  replace (Ascii.eqb c1 "x" || Ascii.eqb c1 "X") with false.
  - now rewrite andb_false_r.
  - destruct c1 as [[] [] [] [] [] [] [] []];
      solve [ discriminate H1 | reflexivity ].
Qed.

Lemma digitValue_decimal c :
  isDigit c = true ->
  digitValue 10 c = Some (Z.of_nat (nat_of_ascii c) - 48).
Proof.
  destruct c as [[] [] [] [] [] [] [] []]; intros Hd;
    solve [ discriminate Hd | reflexivity ].
Qed.

Lemma parseDigits_decimal s : forall acc,
  allDigits s = true ->
  parseDigits 10 s (Some acc) = Some (numeralValueFrom acc s).
Proof.
  induction s as [|c rest IH]; intros acc H; [reflexivity |].
  cbn [allDigits] in H. apply andb_prop in H as [Hc Hrest].
  cbn [parseDigits numeralValueFrom].
  rewrite (digitValue_decimal c Hc). cbn [from_option id].
  rewrite (IH _ Hrest). do 2 f_equal. lia.
Qed.

Lemma parseInt_numeral s :
  isNumeral s = true -> parseInt (Some s) = Some (numeralValue s).
Proof.
  destruct s as [|c rest]; [discriminate |].
  cbn [isNumeral]. intros H.
  assert (Hc : isDigit c = true)
    by (cbn [allDigits] in H; now apply andb_prop in H as [? _]).
  unfold parseInt. cbn [toString].
  rewrite (trimStart_digit c rest Hc), (splitSign_digit c rest Hc).
  rewrite (splitRadix_digits _ H).
  cbn [allDigits] in H. apply andb_prop in H as [_ Hrest].
  cbn [parseDigits]. rewrite (digitValue_decimal c Hc). cbn [from_option id].
  rewrite (parseDigits_decimal rest _ Hrest).
  unfold numeralValue. cbn [numeralValueFrom].
  f_equal. rewrite Z.mul_1_l. reflexivity.
Qed.

End ParseIntNumerals.

(** ** [parseInt] on signs, trailing text and white space *)

Section ParseIntEdges.
Import Js Spec.

Lemma parseDigits_numeral s :
  isNumeral s = true -> parseDigits 10 s None = Some (numeralValue s).
Proof.
  destruct s as [|c rest]; [discriminate |].
  cbn [isNumeral allDigits]. intros H. apply andb_prop in H as [Hc Hrest].
  cbn [parseDigits]. rewrite (digitValue_decimal c Hc). cbn [from_option id].
  rewrite (parseDigits_decimal rest _ Hrest). reflexivity.
Qed.

Lemma isNumeral_allDigits s : isNumeral s = true -> allDigits s = true.
Proof. destruct s; [discriminate | intros H; exact H]. Qed.

Lemma parseInt_minus_numeral s :
  isNumeral s = true ->
  parseInt (Some (String "-" s)) = Some (- numeralValue s).
Proof.
  intros Hs. unfold parseInt. cbn [toString].
  change (trimStart (String "-" s)) with (String "-"%char s).
  change (splitSign (String "-" s)) with (-1, s). cbv beta iota.
  rewrite (splitRadix_digits s (isNumeral_allDigits s Hs)).
  rewrite (parseDigits_numeral s Hs). f_equal; lia.
Qed.

Lemma digitValue_not_digit c : isDigit c = false -> digitValue 10 c = None.
Proof.
  destruct c as [[] [] [] [] [] [] [] []]; intros Hd;
    solve [ discriminate Hd | reflexivity ].
Qed.

Lemma parseDigits_stops s c rest : forall acc,
  allDigits s = true -> isDigit c = false ->
  parseDigits 10 (s +:+ String c rest) (Some acc)
  = Some (numeralValueFrom acc s).
Proof.
  induction s as [|d s IH]; intros acc Hs Hc.
  - change ("" +:+ String c rest) with (String c rest).
    cbn [parseDigits]. now rewrite (digitValue_not_digit c Hc).
  - change (String d s +:+ String c rest) with (String d (s +:+ String c rest)).
    cbn [allDigits] in Hs. apply andb_prop in Hs as [Hd Hs].
    cbn [parseDigits numeralValueFrom].
    rewrite (digitValue_decimal d Hd). cbn [from_option id].
    rewrite (IH _ Hs Hc). do 2 f_equal. unfold id. lia.
Qed.

Lemma splitRadix_decimal_text s c rest :
  isNumeral s = true -> c <> "x"%char -> c <> "X"%char ->
  splitRadix (s +:+ String c rest) = (10, s +:+ String c rest).
Proof.
  destruct s as [|c0 [|c1 s]]; [discriminate | |].
  - intros _ Hx HX.
    change (String c0 "" +:+ String c rest) with (String c0 (String c rest)).
    unfold splitRadix.
    rewrite (proj2 (Ascii.eqb_neq c "x") Hx), (proj2 (Ascii.eqb_neq c "X") HX).
    now rewrite andb_false_r.
  - intros Hs _ _.
    change (String c0 (String c1 s) +:+ String c rest)
      with (String c0 (String c1 (s +:+ String c rest))).
    cbn [isNumeral allDigits] in Hs.
    apply andb_prop in Hs as [_ Hs]. apply andb_prop in Hs as [H1 _].
    unfold splitRadix.
    replace (Ascii.eqb c1 "x" || Ascii.eqb c1 "X") with false.
    + now rewrite andb_false_r.
    + destruct c1 as [[] [] [] [] [] [] [] []];
        solve [ discriminate H1 | reflexivity ].
Qed.

Lemma parseInt_numeral_then_text s c rest :
  isNumeral s = true -> isDigit c = false ->
  c <> "x"%char -> c <> "X"%char ->
  parseInt (Some (s +:+ String c rest)) = Some (numeralValue s).
Proof.
  intros Hs Hc Hx HX. unfold parseInt. cbn [toString].
  pose proof (splitRadix_decimal_text s c rest Hs Hx HX) as Hradix.
  destruct s as [|d s]; [discriminate |].
  cbn [isNumeral allDigits] in Hs. apply andb_prop in Hs as [Hd Hs].
  change (String d s +:+ String c rest) with (String d (s +:+ String c rest))
    in *.
  rewrite (trimStart_digit d _ Hd), (splitSign_digit d _ Hd), Hradix.
  cbn [parseDigits]. rewrite (digitValue_decimal d Hd). cbn [from_option id].
  rewrite (parseDigits_stops s c rest _ Hs Hc).
  unfold numeralValue. cbn [numeralValueFrom]. f_equal.
  rewrite Z.mul_1_l. reflexivity.
Qed.

Lemma trimStartFuel_any fuel : forall fuel' s,
  (String.length s <= fuel)%nat -> (String.length s <= fuel')%nat ->
  trimStartFuel fuel s = trimStartFuel fuel' s.
Proof.
  induction fuel as [|fuel IH]; intros fuel' s Hlen Hlen'.
  - destruct s; [| cbn in Hlen; lia]. destruct fuel'; reflexivity.
  - destruct fuel' as [|fuel'].
    + destruct s; [reflexivity | cbn in Hlen'; lia].
    + cbn [trimStartFuel].
      destruct (stripWhiteSpace s) as [r |] eqn:Hstrip; [| reflexivity].
      apply stripWhiteSpace_shorter in Hstrip. apply IH; lia.
Qed.

Lemma stripWhiteSpace_prefix :
  Forall (fun w => forall s, stripWhiteSpace (w +:+ s) = Some s
                             /\ (0 < String.length w)%nat)
         whiteSpace.
Proof.
  unfold whiteSpace.
  repeat (constructor; [intros s; split; [reflexivity | cbn; lia] |]).
  constructor.
Qed.

Lemma length_append s t :
  String.length (s +:+ t) = (String.length s + String.length t)%nat.
Proof.
  induction s as [|c s IH]; [reflexivity |].
  change (String c s +:+ t) with (String c (s +:+ t)). cbn. now rewrite IH.
Qed.

Lemma trimStart_white_space w s :
  w ∈ whiteSpace -> trimStart (w +:+ s) = trimStart s.
Proof.
  intros Hw.
  pose proof (proj1 (Forall_forall _ _) stripWhiteSpace_prefix w Hw s)
    as [Hstrip Hpos].
  unfold trimStart. rewrite length_append.
  destruct (String.length w) as [|n] eqn:Hn; [lia |].
  cbn [Nat.add trimStartFuel]. rewrite Hstrip.
  apply trimStartFuel_any; lia.
Qed.

Lemma parseInt_no_digit c rest :
  stripWhiteSpace (String c rest) = None ->
  c <> "-"%char -> c <> "+"%char -> isDigit c = false ->
  parseInt (Some (String c rest)) = None.
Proof.
  intros Hws Hminus Hplus Hc. unfold parseInt. cbn [toString].
  unfold trimStart. cbn [String.length trimStartFuel]. rewrite Hws.
  unfold splitSign.
  rewrite (proj2 (Ascii.eqb_neq c "-") Hminus),
          (proj2 (Ascii.eqb_neq c "+") Hplus).
  assert (Hradix : splitRadix (String c rest) = (10, String c rest)).
  { unfold splitRadix. destruct rest as [|c1 rest']; [reflexivity |].
    replace (Ascii.eqb c "0") with false; [reflexivity |].
    symmetry. apply Ascii.eqb_neq. intros ->. discriminate Hc. }
  rewrite Hradix. cbn [parseDigits].
  now rewrite (digitValue_not_digit c Hc).
Qed.

Lemma append_suffix_inj (t : string) : forall s1 s2,
  s1 +:+ t = s2 +:+ t -> s1 = s2.
Proof.
  induction s1 as [|c s1 IH]; intros [|d s2] H.
  - reflexivity.
  - apply (f_equal String.length) in H. rewrite !length_append in H.
    cbn in H. lia.
  - apply (f_equal String.length) in H. rewrite !length_append in H.
    cbn in H. lia.
  - change (String c (s1 +:+ t) = String d (s2 +:+ t)) in H.
    injection H as -> H. f_equal. now apply IH.
Qed.

Example parseInt_empty : parseInt (Some "") = None.
Proof. reflexivity. Qed.

End ParseIntEdges.

(** ** The environment forwarded to the workload *)

Section Environment.
Import Pulumi K8s AppCommon.

Lemma environmentVariableNames_NoDup : NoDup environmentVariableNames.
Proof. apply (bool_decide_unpack (NoDup environmentVariableNames)). vm_compute. exact I. Qed.

Lemma environmentVariables_names (processEnv : Env) :
  map envName (environmentVariables processEnv) = environmentVariableNames.
Proof. reflexivity. Qed.

Lemma environmentVariables_agree (env1 env2 : Env) :
  (forall n, n ∈ environmentVariableNames -> env1 !! n = env2 !! n) ->
  environmentVariables env1 = environmentVariables env2.
Proof.
  intros H. unfold environmentVariables.
  apply map_ext_in. intros n Hn. f_equal.
  apply H. now apply list_elem_of_In.
Qed.

Lemma environmentVariables_elem (processEnv : Env) (e : EnvVar) :
  e ∈ environmentVariables processEnv <->
  envName e ∈ environmentVariableNames /\ envValue e = processEnv !! envName e.
Proof.
  unfold environmentVariables. rewrite list_elem_of_In, in_map_iff. split.
  - intros (n & <- & Hn). cbn. split; [now apply list_elem_of_In | reflexivity].
  - intros [Hn Hv]. exists (envName e). split.
    + destruct e as [n v]. cbn in *. now subst.
    + now apply list_elem_of_In.
Qed.

(** C6. For every process environment, the bag forwarded into the workload
    has exactly one entry for each of the nine whitelisted names, in the order
    of the whitelist, whose value is the current process value (undefined
    when the variable is unset); it has no entry for any other name; setting
    or removing a variable outside the whitelist leaves the bag unchanged;
    and this bag is the [env] of the container in both revisions of the
    component (in the storage-aware one, whenever it is given its claim). *)
Theorem environment_bag_is_whitelist (processEnv : Env) :
  map envName (environmentVariables processEnv) = environmentVariableNames
  /\ List.length environmentVariableNames = 9%nat
  /\ NoDup environmentVariableNames
  /\ (forall n, Spec.forwards (environmentVariables processEnv) n <->
                n ∈ environmentVariableNames)
  /\ (forall n v, {| envName := n; envValue := v |} ∈ environmentVariables processEnv ->
                  v = processEnv !! n)
  /\ (forall k v, k ∉ environmentVariableNames ->
                  environmentVariables (<[k:=v]> processEnv)
                  = environmentVariables processEnv
                  /\ environmentVariables (delete k processEnv)
                     = environmentVariables processEnv)
  /\ (forall name args,
        map env (containers (podSpec
          (Pulumi.args (App.deployment (App.new processEnv name args)))))
        = [environmentVariables processEnv])
  /\ (forall name args claim,
        AppStorage.pvc args = Some claim ->
        exists app,
          AppStorage.new processEnv name args = inr app
          /\ map env (containers (podSpec (Pulumi.args (AppStorage.deployment app))))
             = [environmentVariables processEnv]).
Proof.
  split; [reflexivity |]. split; [reflexivity |].
  split; [exact environmentVariableNames_NoDup |].
  split.
  { intros n. unfold Spec.forwards. split.
    - intros [v Hv]. now apply environmentVariables_elem in Hv as [Hn _].
    - intros Hn. exists (processEnv !! n).
      now apply environmentVariables_elem. }
  split.
  { intros n v Hv. now apply environmentVariables_elem in Hv as [_ Hv]. }
  split.
  { intros k v Hk. split; apply environmentVariables_agree; intros n Hn.
    - apply lookup_insert_ne. intros ->. now apply Hk.
    - apply lookup_delete_ne. intros ->. now apply Hk. }
  split; [reflexivity |].
  intros name [prov tag staticIP pvc] claim Hpvc. cbn in Hpvc. subst pvc.
  eexists. split; reflexivity.
Qed.

End Environment.

(** ** The container port *)

Section ContainerPort.
Import Pulumi K8s AppCommon.

Example APP_PORT_unset : APP_PORT ∅ = 3000.
Proof. reflexivity. Qed.

Example APP_PORT_8080 : APP_PORT {[ "PORT" := "8080" ]} = 8080.
Proof. reflexivity. Qed.

Example APP_PORT_text : APP_PORT {[ "PORT" := "http" ]} = 3000.
Proof. reflexivity. Qed.

Example APP_PORT_trailing_text : APP_PORT {[ "PORT" := "12abc" ]} = 12.
Proof. reflexivity. Qed.

Lemma APP_PORT_lookup (processEnv : Env) :
  APP_PORT processEnv = Js.orElse (Js.parseInt (processEnv !! "PORT")) 3000.
Proof. reflexivity. Qed.

Lemma orElse_nonzero n d : n <> 0 -> Js.orElse (Some n) d = n.
Proof. destruct n; [congruence | reflexivity | reflexivity]. Qed.

(** C7, as stated, fails: [PORT=0] is set and numeric, and the effective
    port is 3000, not the configured 0. *)
Lemma APP_PORT_zero_not_used :
  ({[ "PORT" := "0" ]} : Env) !! "PORT" = Some "0"
  /\ Spec.isNumeral "0" = true
  /\ Spec.numeralValue "0" = 0
  /\ APP_PORT {[ "PORT" := "0" ]} = 3000
  /\ APP_PORT {[ "PORT" := "0" ]} <> Spec.numeralValue "0".
Proof. repeat split; vm_compute; congruence. Qed.

(** C7, amended. The effective container port is 3000 when [PORT] is unset,
    when [parseInt] reads no integer at the start of its value (as for the
    empty value and for a value whose first character is neither white space,
    a sign nor a digit), and when the integer read is 0; otherwise it is the
    integer [parseInt] reads from the start of the value. For a value that is
    a decimal numeral this integer is the number the numeral denotes, and it
    is the same when the numeral is followed by text that begins with a
    character other than a digit, "x" and "X": trailing text is ignored.
    The parts that name the integer are stated for integers up to 2^53, which
    a JavaScript number holds exactly. *)
Theorem APP_PORT_default_or_parsed (processEnv : Env) :
  (processEnv !! "PORT" = None -> APP_PORT processEnv = 3000)
  /\ (forall s, processEnv !! "PORT" = Some s ->
                Js.parseInt (Some s) = None -> APP_PORT processEnv = 3000)
  /\ (forall s, processEnv !! "PORT" = Some s ->
                Js.parseInt (Some s) = Some 0 -> APP_PORT processEnv = 3000)
  /\ (forall s n, processEnv !! "PORT" = Some s ->
                  Js.parseInt (Some s) = Some n -> n <> 0 ->
                  Z.abs n <= 2 ^ 53 ->
                  APP_PORT processEnv = n)
  /\ (forall s, processEnv !! "PORT" = Some s ->
                Spec.isNumeral s = true ->
                Spec.numeralValue s <= 2 ^ 53 ->
                APP_PORT processEnv
                = if Spec.numeralValue s =? 0 then 3000 else Spec.numeralValue s)
  /\ (forall s c rest,
        processEnv !! "PORT" = Some (s +:+ String c rest) ->
        Spec.isNumeral s = true ->
        Spec.isDigit c = false -> c <> "x"%char -> c <> "X"%char ->
        Spec.numeralValue s <= 2 ^ 53 ->
        APP_PORT processEnv
        = if Spec.numeralValue s =? 0 then 3000 else Spec.numeralValue s)
  /\ (processEnv !! "PORT" = Some "" -> APP_PORT processEnv = 3000)
  /\ (forall c rest,
        processEnv !! "PORT" = Some (String c rest) ->
        Js.stripWhiteSpace (String c rest) = None ->
        c <> "-"%char -> c <> "+"%char -> Spec.isDigit c = false ->
        APP_PORT processEnv = 3000).
Proof.
  rewrite APP_PORT_lookup.
  split; [| split; [| split; [| split; [| split; [| split; [| split]]]]]].
  - intros ->. reflexivity.
  - intros s -> ->. reflexivity.
  - intros s -> ->. reflexivity.
  - intros s n -> -> Hn _. now apply orElse_nonzero.
  - intros s -> Hs _. rewrite (parseInt_numeral s Hs).
    destruct (Z.eqb_spec (Spec.numeralValue s) 0) as [-> | Hn].
    + reflexivity.
    + now apply orElse_nonzero.
  - intros s c rest -> Hs Hc Hx HX _.
    rewrite (parseInt_numeral_then_text s c rest Hs Hc Hx HX).
    destruct (Z.eqb_spec (Spec.numeralValue s) 0) as [-> | Hn].
    + reflexivity.
    + now apply orElse_nonzero.
  - intros ->. reflexivity.
  - intros c rest -> Hws Hminus Hplus Hc.
    now rewrite (parseInt_no_digit c rest Hws Hminus Hplus Hc).
Qed.

(** The amended statement at [PORT=8080] and at [PORT=12abc]. *)
Lemma APP_PORT_default_or_parsed_witness :
  ({[ "PORT" := "8080" ]} : Env) !! "PORT" = Some "8080"
  /\ Spec.isNumeral "8080" = true
  /\ APP_PORT {[ "PORT" := "8080" ]} = 8080
  /\ APP_PORT {[ "PORT" := "12abc" ]} = 12.
Proof.
  split; [reflexivity |]. split; [reflexivity |]. split.
  - exact (proj1 (proj2 (proj2 (proj2 (proj2
             (APP_PORT_default_or_parsed {[ "PORT" := "8080" ]})))))
           "8080" eq_refl eq_refl ltac:(vm_compute; discriminate)).
  - exact (proj1 (proj2 (proj2 (proj2 (proj2 (proj2
             (APP_PORT_default_or_parsed {[ "PORT" := "12abc" ]}))))))
           "12" "a"%char "bc" eq_refl eq_refl eq_refl
           ltac:(discriminate) ltac:(discriminate)
           ltac:(vm_compute; discriminate)).
Defined.

End ContainerPort.

(** ** The address and the URL of the application *)

Section ApplicationUrl.
Import Pulumi K8s AppCommon.

Lemma append_empty (s : string) : s +:+ "" = s.
Proof.
  induction s as [|c s IH]; [reflexivity |].
  change (String c (s +:+ "") = String c s). now rewrite IH.
Qed.

Lemma appUrl_resolve name (svc : Resource ServiceArgs) w :
  resolve (AppCommon.appUrl name svc) w
  = "http://" +:+ Js.toString (resolve (address name svc) w) +:+ ":"
    +:+ numberToString (resolve (firstPort svc) w).
Proof.
  unfold AppCommon.appUrl, interpolate2, applyOut, all2. cbn [resolve].
  now rewrite append_empty.
Qed.

Lemma service_firstPort processEnv name prov staticIP this w :
  resolve (firstPort (AppCommon.service processEnv name prov staticIP this)) w
  = Some 80.
Proof. reflexivity. Qed.

Lemma service_appUrl processEnv name prov staticIP this w :
  resolve (AppCommon.appUrl name
             (AppCommon.service processEnv name prov staticIP this)) w
  = "http://"
    +:+ Js.toString
          (resolve (address name
                      (AppCommon.service processEnv name prov staticIP this)) w)
    +:+ ":80".
Proof. rewrite appUrl_resolve, service_firstPort. reflexivity. Qed.

Lemma address_ip name (svc : Resource ServiceArgs) :
  name = "gke" \/ name = "aks" -> address name svc = ingressField ip svc.
Proof. intros [-> | ->]; reflexivity. Qed.

Lemma address_hostname name (svc : Resource ServiceArgs) :
  ~ (name = "gke" \/ name = "aks") -> address name svc = ingressField hostname svc.
Proof.
  intros H. unfold address.
  rewrite !bool_decide_eq_false_2; [reflexivity | tauto | tauto].
Qed.

Lemma AppStorage_new_inv processEnv name args app :
  AppStorage.new processEnv name args = inr app ->
  exists claim, AppStorage.pvc args = Some claim /\
    app = {| AppStorage.this := mkUrn DemoAppComponent name;
             AppStorage.deployment :=
               mkResource (mkUrn Deployment (name +:+ "-scaffold-app")) None
                 (AppStorage.deploymentArgs processEnv args (nameOf claim))
                 {| provider := Some (AppStorage.provider args);
                    parent := Some (mkUrn DemoAppComponent name);
                    dependsOn := [] |}
                 [urn claim];
             AppStorage.hpa :=
               mkResource (mkUrn HorizontalPodAutoscaler "scaffold-app-hpa")
                 (Some "scaffold-app-hpa")
                 {| targetApiVersion := "apps/v1";
                    targetKind := "Deployment";
                    targetName :=
                      mkOutput [mkUrn Deployment (name +:+ "-scaffold-app")]
                        (fun w => physicalName w
                                    (mkUrn Deployment (name +:+ "-scaffold-app")));
                    minReplicas := 2;
                    maxReplicas := 4;
                    targetCPUUtilizationPercentage := 90 |}
                 noOptions
                 [mkUrn Deployment (name +:+ "-scaffold-app")];
             AppStorage.service :=
               AppCommon.service processEnv name (AppStorage.provider args)
                 (AppStorage.staticAppIP args) (mkUrn DemoAppComponent name);
             AppStorage.appUrl :=
               AppCommon.appUrl name
                 (AppCommon.service processEnv name (AppStorage.provider args)
                    (AppStorage.staticAppIP args) (mkUrn DemoAppComponent name)) |}.
Proof.
  unfold AppStorage.new, AppStorage.pvcName.
  destruct (AppStorage.pvc args) as [claim |]; [| discriminate].
  cbn. intros [= <-]. now exists claim.
Qed.

Lemma AppStorage_new_claim processEnv name prov tag staticIP claim :
  exists app,
    AppStorage.new processEnv name
      {| AppStorage.provider := prov; AppStorage.imageTag := tag;
         AppStorage.staticAppIP := staticIP; AppStorage.pvc := Some claim |}
    = inr app.
Proof. eexists. reflexivity. Qed.

End ApplicationUrl.

Section AddressSelection.
Import Pulumi K8s AppCommon.

Example scenario_gke :
  resolve (App.appUrl (App.new ∅ "gke" Samples.appArgs)) Samples.world
  = "http://10.0.0.5:80".
Proof. reflexivity. Qed.

Example scenario_custom_provider :
  resolve (App.appUrl (App.new ∅ "custom-provider" Samples.appArgs))
          Samples.hostnameWorld
  = "http://lb.example.com:80".
Proof. reflexivity. Qed.

Example scenario_gke_hostname_only :
  resolve (App.appUrl (App.new ∅ "gke" Samples.appArgs)) Samples.hostnameWorld
  = "http://undefined:80".
Proof. reflexivity. Qed.

Example scenario_upper_case_name :
  resolve (App.appUrl (App.new ∅ "GKE" Samples.appArgs)) Samples.world
  = "http://lb.example.com:80".
Proof. reflexivity. Qed.

(** C1. The address of a target is read from the [hostname] field of the
    first load-balancer ingress entry by default, and from its [ip] field
    exactly when the target is named "gke" or "aks". One field serves for a
    name whatever the service object and whatever the cluster reports, and
    the URL of either revision of the component is built from the address
    chosen this way: in every world it holds the field, chosen by the name,
    of the first ingress entry that the world reports for the service
    "<name>-scaffold-app". *)
Theorem address_keyed_on_name (name : string) :
  (name = "gke" \/ name = "aks" ->
   forall svc w, resolve (address name svc) w = resolve (ingressField ip svc) w)
  /\ (~ (name = "gke" \/ name = "aks") ->
      forall svc w,
        resolve (address name svc) w = resolve (ingressField hostname svc) w)
  /\ ((forall svc w,
         resolve (address name svc) w = resolve (ingressField ip svc) w)
      <-> name = "gke" \/ name = "aks")
  /\ (exists f, (f = hostname \/ f = ip) /\
                forall svc, address name svc = ingressField f svc)
  /\ (forall processEnv args,
        App.appUrl (App.new processEnv name args)
        = AppCommon.appUrl name (App.service (App.new processEnv name args)))
  /\ (forall processEnv args claim,
        AppStorage.pvc args = Some claim ->
        exists app,
          AppStorage.new processEnv name args = inr app
          /\ AppStorage.appUrl app
             = AppCommon.appUrl name (AppStorage.service app))
  /\ (forall svc w,
        resolve (address name svc) w
        = match loadBalancerIngress w (urn svc) !! 0%nat with
          | Some i => if bool_decide (name = "gke" \/ name = "aks")
                      then ip i else hostname i
          | None => None
          end)
  /\ (forall processEnv args w,
        resolve (App.appUrl (App.new processEnv name args)) w
        = "http://"
          +:+ Js.toString
                (match loadBalancerIngress w
                         (mkUrn Service (name +:+ "-scaffold-app")) !! 0%nat with
                 | Some i => if bool_decide (name = "gke" \/ name = "aks")
                             then ip i else hostname i
                 | None => None
                 end)
          +:+ ":80")
  /\ (forall processEnv args claim w,
        AppStorage.pvc args = Some claim ->
        exists app,
          AppStorage.new processEnv name args = inr app
          /\ resolve (AppStorage.appUrl app) w
             = "http://"
               +:+ Js.toString
                     (match loadBalancerIngress w
                              (mkUrn Service (name +:+ "-scaffold-app"))
                            !! 0%nat with
                      | Some i => if bool_decide (name = "gke" \/ name = "aks")
                                  then ip i else hostname i
                      | None => None
                      end)
               +:+ ":80").
Proof.
  assert (Hread : forall svc w,
            resolve (address name svc) w
            = match loadBalancerIngress w (urn svc) !! 0%nat with
              | Some i => if bool_decide (name = "gke" \/ name = "aks")
                          then ip i else hostname i
              | None => None
              end).
  { intros svc w. case_bool_decide as Hn.
    - rewrite (address_ip name svc Hn). reflexivity.
    - rewrite (address_hostname name svc Hn). reflexivity. }
  split; [| split; [| split; [| split; [| split; [| split; [| split; [| split]]]]]]].
  - intros H svc w. now rewrite (address_ip name svc H).
  - intros H svc w. now rewrite (address_hostname name svc H).
  - split.
    + intros H. destruct (decide (name = "gke" \/ name = "aks")) as [Hn | Hn];
        [exact Hn | exfalso].
      specialize (H (AppCommon.service ∅ name (mkUrn K8sProvider "gke") None
                       (mkUrn DemoAppComponent name)) Samples.world).
      rewrite (address_hostname name _ Hn) in H. discriminate H.
    + intros H svc w. now rewrite (address_ip name svc H).
  - destruct (decide (name = "gke" \/ name = "aks")) as [Hn | Hn].
    + exists ip. split; [now right |]. intros svc. now apply address_ip.
    + exists hostname. split; [now left |]. intros svc. now apply address_hostname.
  - reflexivity.
  - intros processEnv [prov tag staticIP pvc] claim Hpvc. cbn in Hpvc.
    subst pvc. eexists. split; reflexivity.
  - exact Hread.
  - intros processEnv args w. unfold App.new. cbn [App.appUrl].
    rewrite service_appUrl, Hread. reflexivity.
  - intros processEnv [prov tag staticIP pvc] claim w Hpvc. cbn in Hpvc.
    subst pvc. eexists. split; [reflexivity |].
    cbn [AppStorage.appUrl AppStorage.provider AppStorage.staticAppIP].
    rewrite service_appUrl, Hread. reflexivity.
Qed.

Example url_ignores_container_port :
  APP_PORT {[ "PORT" := "8080" ]} = 8080
  /\ resolve (App.appUrl (App.new {[ "PORT" := "8080" ]} "gke" Samples.appArgs))
             Samples.world
     = "http://10.0.0.5:80".
Proof. split; reflexivity. Qed.

(** C2. For every target, process environment and report of the cluster, the
    URL of the component is "http://", the resolved address, a colon and 80:
    the [port] the service declares, whatever the container port
    ([targetPort], [APP_PORT]) is. This holds for both revisions of the
    component; an address the cluster does not report reads "undefined". *)
Theorem appUrl_format (processEnv : Env) (name : string) (w : World) :
  (forall args,
     let app := App.new processEnv name args in
     resolve (App.appUrl app) w
     = "http://" +:+ Js.toString (resolve (address name (App.service app)) w)
       +:+ ":80"
     /\ servicePorts (Pulumi.args (App.service app))
        = [ {| port := 80; targetPort := APP_PORT processEnv |} ])
  /\ (forall prov tag staticIP claim,
        exists app,
          AppStorage.new processEnv name
            {| AppStorage.provider := prov; AppStorage.imageTag := tag;
               AppStorage.staticAppIP := staticIP;
               AppStorage.pvc := Some claim |} = inr app
          /\ resolve (AppStorage.appUrl app) w
             = "http://"
               +:+ Js.toString (resolve (address name (AppStorage.service app)) w)
               +:+ ":80"
          /\ servicePorts (Pulumi.args (AppStorage.service app))
             = [ {| port := 80; targetPort := APP_PORT processEnv |} ])
  /\ (forall otherEnv args,
        resolve (App.appUrl (App.new otherEnv name args)) w
        = resolve (App.appUrl (App.new processEnv name args)) w).
Proof.
  split; [| split].
  - intros args app. split; [| reflexivity].
    unfold app, App.new. cbn [App.appUrl App.service].
    apply service_appUrl.
  - intros prov tag staticIP claim. eexists. split; [reflexivity |].
    split; [| reflexivity].
    cbn [AppStorage.appUrl AppStorage.service AppStorage.provider
         AppStorage.staticAppIP].
    apply service_appUrl.
  - intros otherEnv args. unfold App.new. cbn [App.appUrl].
    rewrite !service_appUrl. reflexivity.
Qed.

End AddressSelection.

(** ** Storage, host aliases and the autoscaler of the workload *)

Section Workload.
Import Pulumi K8s AppCommon.

(** C3, as stated, fails on the storage-aware component: called without a
    claim it raises a [TypeError], it does not produce a workload without
    mount. *)
Lemma no_claim_raises :
  AppStorage.pvc Samples.noClaimArgs = None
  /\ AppStorage.new ∅ "gke" Samples.noClaimArgs
     = inl (Js.TypeError
              "Cannot read properties of undefined (reading 'metadata')")
  /\ ~ (exists app, AppStorage.new ∅ "gke" Samples.noClaimArgs = inr app).
Proof.
  split; [reflexivity |]. split; [reflexivity |].
  intros [app H]. discriminate H.
Qed.

(** C3, amended. The storage-aware component takes the claim as a mandatory
    argument: with a claim it always produces a workload whose one container
    mounts "app-volume" at "/opt/app-files" and whose volumes list is the one
    entry "app-volume" bound to the claim's name; without the claim it raises
    an error. The revision of the component that has no claim argument
    ([src/app.ts]) produces a workload with no volume mount and no volumes,
    and never raises. *)
Theorem volume_mount_follows_claim (processEnv : Env) (name : string) :
  (forall prov tag staticIP claim,
     exists app,
       AppStorage.new processEnv name
         {| AppStorage.provider := prov; AppStorage.imageTag := tag;
            AppStorage.staticAppIP := staticIP;
            AppStorage.pvc := Some claim |} = inr app
       /\ map volumeMounts
            (containers (podSpec (Pulumi.args (AppStorage.deployment app))))
          = [ [ {| mountPath := "/opt/app-files"; mountName := "app-volume" |} ] ]
       /\ volumes (podSpec (Pulumi.args (AppStorage.deployment app)))
          = [ {| volName := "app-volume"; claimName := nameOf claim |} ])
  /\ (forall args,
        AppStorage.pvc args = None ->
        exists e, AppStorage.new processEnv name args = inl e)
  /\ (forall args,
        let app := App.new processEnv name args in
        map volumeMounts
          (containers (podSpec (Pulumi.args (App.deployment app)))) = [ [] ]
        /\ volumes (podSpec (Pulumi.args (App.deployment app))) = []).
Proof.
  split; [| split].
  - intros prov tag staticIP claim. eexists. repeat split; reflexivity.
  - intros args Hnone. unfold AppStorage.new, AppStorage.pvcName.
    rewrite Hnone. eexists. reflexivity.
  - intros args app. split; reflexivity.
Qed.

(** The amended statement at the sample arguments. *)
Lemma volume_mount_follows_claim_witness :
  AppStorage.pvc Samples.noClaimArgs = None
  /\ exists e, AppStorage.new ∅ "gke" Samples.noClaimArgs = inl e.
Proof.
  split; [reflexivity |].
  exact (proj1 (proj2 (volume_mount_follows_claim ∅ "gke"))
           Samples.noClaimArgs eq_refl).
Defined.

(** C9. When the fixed address [DATABASE_IP_ADDRESS] is configured, the pod
    specification of every deployed workload, in both revisions of the
    component, has the single host-alias entry that maps "mongo-primary",
    "mongo-secondary" and "mongo-arbiter" to that address, unchanged. *)
Theorem host_aliases_configured (processEnv : Env) (databaseIp : string) :
  processEnv !! "DATABASE_IP_ADDRESS" = Some databaseIp ->
  (forall name args,
     K8s.hostAliases
       (podSpec (Pulumi.args (App.deployment (App.new processEnv name args))))
     = [ {| aliasIp := Some databaseIp;
            hostnames := ["mongo-primary"; "mongo-secondary"; "mongo-arbiter"] |} ])
  /\ (forall name args claim,
        AppStorage.pvc args = Some claim ->
        exists app,
          AppStorage.new processEnv name args = inr app
          /\ K8s.hostAliases (podSpec (Pulumi.args (AppStorage.deployment app)))
             = [ {| aliasIp := Some databaseIp;
                    hostnames :=
                      ["mongo-primary"; "mongo-secondary"; "mongo-arbiter"] |} ]).
Proof.
  intros Hip. split.
  - intros name args. cbn. unfold AppCommon.hostAliases, DATABASE_IP_ADDRESS.
    now rewrite Hip.
  - intros name [prov tag staticIP pvc] claim Hpvc. cbn in Hpvc. subst pvc.
    eexists. split; [reflexivity |].
    cbn. unfold AppCommon.hostAliases, DATABASE_IP_ADDRESS. now rewrite Hip.
Qed.

(** C9 at [DATABASE_IP_ADDRESS=10.20.0.7]. *)
Lemma host_aliases_configured_witness :
  ({[ "DATABASE_IP_ADDRESS" := "10.20.0.7" ]} : Env) !! "DATABASE_IP_ADDRESS"
  = Some "10.20.0.7"
  /\ K8s.hostAliases
       (podSpec (Pulumi.args (App.deployment
          (App.new {[ "DATABASE_IP_ADDRESS" := "10.20.0.7" ]} "gke"
                   Samples.appArgs))))
     = [ {| aliasIp := Some "10.20.0.7";
            hostnames := ["mongo-primary"; "mongo-secondary"; "mongo-arbiter"] |} ].
Proof.
  split; [reflexivity |].
  exact (proj1 (host_aliases_configured
                  {[ "DATABASE_IP_ADDRESS" := "10.20.0.7" ]} "10.20.0.7" eq_refl)
           "gke" Samples.appArgs).
Defined.

(** C10, as stated, fails in its conclusion: the autoscaler does vary per
    target. The autoscalers of the targets "gke" and "eks" differ, because
    each names the deployment of its own target. *)
Lemma hpa_varies_with_target :
  exists gke eks,
    AppStorage.new ∅ "gke" Samples.storageArgs = inr gke
    /\ AppStorage.new ∅ "eks" Samples.storageArgs = inr eks
    /\ resolve (targetName (Pulumi.args (AppStorage.hpa gke))) Samples.world
       = "gke-scaffold-app-1a2b3c4"
    /\ resolve (targetName (Pulumi.args (AppStorage.hpa eks))) Samples.world
       = "eks-scaffold-app-1a2b3c4"
    /\ AppStorage.hpa gke <> AppStorage.hpa eks.
Proof.
  eexists. eexists. split; [reflexivity |]. split; [reflexivity |].
  split; [reflexivity |]. split; [reflexivity |].
  intros H.
  apply (f_equal (fun h => resolve (targetName (Pulumi.args h)) Samples.world))
    in H.
  discriminate H.
Qed.

(** C10, amended. Every instantiation of the storage-aware component
    registers the autoscaler under the fixed logical and Kubernetes name
    "scaffold-app-hpa" with no option at all, hence no provider and no
    parent, whereas the deployment and the service are named after the
    target ("<name>-scaffold-app") and carry the target's provider. The
    autoscaler is therefore not bound to the target cluster, and its
    identity, declared name and options are the same for any two targets.
    Its [scaleTargetRef] does vary: it names the deployment of its own
    target. *)
Theorem hpa_not_bound_to_target (processEnv : Env) (name : string)
    (args : AppStorage.DemoAppArgs)
    (claim : Resource PersistentVolumeClaimArgs) :
  AppStorage.pvc args = Some claim ->
  exists app,
    AppStorage.new processEnv name args = inr app
    /\ urn (AppStorage.hpa app)
       = mkUrn HorizontalPodAutoscaler "scaffold-app-hpa"
    /\ declaredName (AppStorage.hpa app) = Some "scaffold-app-hpa"
    /\ (forall w, resolve (nameOf (AppStorage.hpa app)) w = "scaffold-app-hpa")
    /\ opts (AppStorage.hpa app) = noOptions
    /\ provider (opts (AppStorage.hpa app)) = None
    /\ urn (AppStorage.deployment app)
       = mkUrn Deployment (name +:+ "-scaffold-app")
    /\ provider (opts (AppStorage.deployment app))
       = Some (AppStorage.provider args)
    /\ urn (AppStorage.service app) = mkUrn Service (name +:+ "-scaffold-app")
    /\ provider (opts (AppStorage.service app))
       = Some (AppStorage.provider args)
    /\ (forall otherEnv otherName otherArgs otherApp,
          AppStorage.new otherEnv otherName otherArgs = inr otherApp ->
          urn (AppStorage.hpa otherApp) = urn (AppStorage.hpa app)
          /\ declaredName (AppStorage.hpa otherApp)
             = declaredName (AppStorage.hpa app)
          /\ opts (AppStorage.hpa otherApp) = opts (AppStorage.hpa app))
    /\ (forall w,
          resolve (targetName (Pulumi.args (AppStorage.hpa app))) w
          = physicalName w (mkUrn Deployment (name +:+ "-scaffold-app"))).
Proof.
  destruct args as [prov tag staticIP pvc]. cbn. intros ->.
  eexists. split; [reflexivity |].
  repeat (split; [reflexivity |]).
  split; [| reflexivity].
  intros otherEnv otherName otherArgs otherApp Hother.
  apply AppStorage_new_inv in Hother as (otherClaim & _ & ->).
  repeat split; reflexivity.
Qed.

(** C10 at the sample arguments. *)
Lemma hpa_not_bound_to_target_witness :
  AppStorage.pvc Samples.storageArgs = Some Samples.claim
  /\ exists app,
       AppStorage.new ∅ "gke" Samples.storageArgs = inr app
       /\ provider (opts (AppStorage.hpa app)) = None
       /\ provider (opts (AppStorage.deployment app))
          = Some (mkUrn K8sProvider "gke").
Proof.
  split; [reflexivity |].
  destruct (hpa_not_bound_to_target ∅ "gke" Samples.storageArgs Samples.claim
              eq_refl)
    as (app & Hnew & _ & _ & _ & _ & Hhpa & _ & Hdep & _).
  exists app. split; [exact Hnew |]. split; [exact Hhpa | exact Hdep].
Defined.

End Workload.

(** ** Creation orders *)

Section CreationOrder.
Import Pulumi.

Lemma indexOf_lookup x l i : indexOf x l = Some i -> l !! i = Some x.
Proof.
  revert i. induction l as [|y l IH]; intros i; [discriminate |].
  cbn [indexOf]. case_bool_decide as Hxy.
  - intros [= <-]. now subst.
  - destruct (indexOf x l) as [k |]; [| discriminate].
    intros [= <-]. now apply IH.
Qed.

Lemma createdBeforeb_sound order x y :
  createdBeforeb order x y = true -> createdBefore order x y.
Proof.
  unfold createdBeforeb.
  destruct (indexOf x order) as [i |] eqn:Hi; [| discriminate].
  destruct (indexOf y order) as [j |] eqn:Hj; [| discriminate].
  intros Hlt. exists i, j.
  split; [now apply indexOf_lookup |]. split; [now apply indexOf_lookup |].
  now apply Nat.ltb_lt.
Qed.

Lemma validOrderb_sound regs order :
  validOrderb regs order = true -> validOrder regs order.
Proof.
  unfold validOrderb. intros H.
  apply andb_prop in H as [H Hdeps]. apply andb_prop in H as [Hnd Hall].
  split; [| split].
  - now apply bool_decide_eq_true in Hnd.
  - intros r Hr. rewrite forallb_forall in Hall.
    apply list_elem_of_In in Hr. apply Hall in Hr.
    now apply bool_decide_eq_true in Hr.
  - intros r d Hr Hd. rewrite forallb_forall in Hdeps.
    apply list_elem_of_In in Hr. apply Hdeps in Hr.
    rewrite forallb_forall in Hr. apply list_elem_of_In in Hd.
    now apply createdBeforeb_sound, Hr.
Qed.

Lemma createdBefore_trans order x y z :
  NoDup order ->
  createdBefore order x y -> createdBefore order y z -> createdBefore order x z.
Proof.
  intros Hnd (i & j & Hi & Hj & Hij) (j' & k & Hj' & Hk & Hjk).
  assert (j = j') as <- by (eapply NoDup_lookup; eassumption).
  exists i, k. repeat split; [assumption | assumption | lia].
Qed.

End CreationOrder.

(** ** The GKE cluster component *)

Section GkeCluster.
Import Pulumi K8s AppCommon.

Lemma Gke_new_inv config name g :
  Gke.new config name = inr g ->
  exists diskSize,
    config !! "filesVolumeSize" = Some (Gke.ConfigNumber diskSize)
    /\ Gke.new {[ "filesVolumeSize" := Gke.ConfigNumber diskSize ]} name = inr g.
Proof.
  unfold Gke.new, Gke.requireNumber.
  destruct (config !! "filesVolumeSize") as [[diskSize | s] |] eqn:Hcfg;
    [| discriminate | discriminate].
  intros Hg. exists diskSize. split; [reflexivity |].
  rewrite lookup_singleton_eq. exact Hg.
Qed.

Example Gke_new_without_size :
  Gke.new ∅ "multicloud" = inl (Js.ConfigMissingError "filesVolumeSize").
Proof. reflexivity. Qed.

(** The dependency edges of the cluster component. *)
Lemma Gke_edges config name g :
  Gke.new config name = inr g ->
  dependsOn (opts (Gke.provider g)) = [urn (Gke.nodePool g)]
  /\ dependsOn (opts (Gke.nodePool g)) = [urn (Gke.cluster g)]
  /\ urn (Gke.cluster g) ∈ inputs (Gke.provider g)
  /\ urn (Gke.cluster g) = mkUrn ContainerCluster "cluster"
  /\ urn (Gke.nodePool g) = mkUrn NodePool "primary-node-pool"
  /\ urn (Gke.provider g) = mkUrn K8sProvider "gke".
Proof.
  intros Hg. apply Gke_new_inv in Hg as (diskSize & _ & Hg).
  unfold Gke.new, Gke.requireNumber in Hg.
  rewrite lookup_singleton_eq in Hg. cbn in Hg. injection Hg as <-.
  cbn. repeat split; try reflexivity. apply list_elem_of_here.
Qed.

(** Any registration list that holds the cluster component orders the
    cluster before the node pool and the node pool before the provider. *)
Lemma Gke_chain config name g regs order :
  Gke.new config name = inr g ->
  (forall r, r ∈ Gke.registrations g -> r ∈ regs) ->
  validOrder regs order ->
  createdBefore order (urn (Gke.cluster g)) (urn (Gke.nodePool g))
  /\ createdBefore order (urn (Gke.nodePool g)) (urn (Gke.provider g)).
Proof.
  intros Hg Hsub (Hnd & _ & Hdeps).
  destruct (Gke_edges config name g Hg) as (Hprov & Hpool & _).
  split.
  - apply (Hdeps (register (Gke.nodePool g))).
    + apply Hsub. unfold Gke.registrations.
      do 6 apply list_elem_of_further. apply list_elem_of_here.
    + unfold dependencies. cbn [regOpts register]. rewrite Hpool.
      apply elem_of_app. left. apply list_elem_of_here.
  - apply (Hdeps (register (Gke.provider g))).
    + apply Hsub. unfold Gke.registrations.
      do 7 apply list_elem_of_further. apply list_elem_of_here.
    + unfold dependencies. cbn [regOpts register]. rewrite Hprov.
      apply elem_of_app. left. apply list_elem_of_here.
Qed.

Lemma deploy_appends processEnv clusters : forall appUrls instances,
  exists instances',
    Index.deploy processEnv clusters appUrls instances
    = inr ((appUrls
           ++ map (fun c =>
                     {| Index.urlName := Index.name c;
                        Index.url :=
                          AppCommon.appUrl (Index.name c)
                            (AppCommon.service processEnv (Index.name c)
                               (urn (Index.provider c)) (Index.staticAppIP c)
                               (mkUrn DemoAppComponent (Index.name c))) |})
                  clusters)%list,
           instances')
    /\ List.length instances'
       = (List.length instances + List.length clusters)%nat.
Proof.
  induction clusters as [|c rest IH]; intros appUrls instances.
  - exists instances. cbn. rewrite app_nil_r. split; [reflexivity | lia].
  - cbn [Index.deploy AppStorage.new AppStorage.pvcName AppStorage.pvc
         Js.bind Js.ret].
    edestruct IH as (instances' & -> & Hlen).
    exists instances'. split.
    + cbn [map]. rewrite <- app_assoc. reflexivity.
    + rewrite Hlen, length_app. cbn. lia.
Qed.

Lemma main_returns config processEnv diskSize :
  config !! "filesVolumeSize" = Some (Gke.ConfigNumber diskSize) ->
  exists p, Index.main config processEnv = inr p.
Proof.
  intros Hcfg. unfold Index.main, Gke.new, Gke.requireNumber.
  rewrite Hcfg. cbn [Js.bind Js.ret].
  match goal with
  | |- context [Index.deploy processEnv ?cs [] []] =>
      destruct (deploy_appends processEnv cs [] []) as (instances & -> & _)
  end.
  eexists. reflexivity.
Qed.

Lemma main_inv config processEnv p :
  Index.main config processEnv = inr p ->
  Gke.new config "multicloud" = inr (Index.gkeCluster p).
Proof.
  unfold Index.main.
  destruct (Gke.new config "multicloud") as [e | g]; [discriminate |].
  cbn [Js.bind].
  destruct (Index.deploy processEnv (Index.clusters g) [] []) as [e | [urls insts]];
    [discriminate |].
  cbn. now intros [= <-].
Qed.

(** C4. In the program, the provider handed to the application explicitly
    depends on the dedicated node pool (its [dependsOn] is the node pool, and
    its kubeconfig additionally refers to the cluster), and the node pool
    explicitly depends on the cluster. So in every creation order the engine
    may follow, the cluster is created before the node pool, the node pool
    before the provider, and every resource that is given this provider is
    created after the node pool and after the cluster. *)
Theorem provider_waits_for_node_pool (config : Gke.Config) (processEnv : Env)
    (diskSize : Z) :
  config !! "filesVolumeSize" = Some (Gke.ConfigNumber diskSize) ->
  exists p,
    Index.main config processEnv = inr p
    /\ urn (Gke.nodePool (Index.gkeCluster p))
       ∈ dependsOn (opts (Gke.provider (Index.gkeCluster p)))
    /\ urn (Gke.cluster (Index.gkeCluster p))
       ∈ dependencies (register (Gke.provider (Index.gkeCluster p)))
    /\ urn (Gke.cluster (Index.gkeCluster p))
       ∈ dependsOn (opts (Gke.nodePool (Index.gkeCluster p)))
    /\ (forall order,
          validOrder (Index.registrations p) order ->
          createdBefore order (urn (Gke.cluster (Index.gkeCluster p)))
                              (urn (Gke.nodePool (Index.gkeCluster p)))
          /\ createdBefore order (urn (Gke.nodePool (Index.gkeCluster p)))
                                 (urn (Gke.provider (Index.gkeCluster p)))
          /\ (forall r,
                r ∈ Index.registrations p ->
                provider (regOpts r)
                = Some (urn (Gke.provider (Index.gkeCluster p))) ->
                createdBefore order (urn (Gke.nodePool (Index.gkeCluster p)))
                                    (regUrn r)
                /\ createdBefore order (urn (Gke.cluster (Index.gkeCluster p)))
                                       (regUrn r))).
Proof.
  intros Hcfg.
  destruct (main_returns config processEnv diskSize Hcfg) as [p Hp].
  exists p. split; [exact Hp |].
  apply main_inv in Hp. set (g := Index.gkeCluster p) in *.
  destruct (Gke_edges config _ g Hp) as (Hprov & Hpool & Hin & _).
  split; [rewrite Hprov; apply list_elem_of_here |].
  split; [unfold dependencies; cbn [regInputs register];
          rewrite !elem_of_app; right; now left |].
  split; [rewrite Hpool; apply list_elem_of_here |].
  intros order Hvalid.
  destruct (Gke_chain config _ g (Index.registrations p) order Hp)
    as [Hcp Hpp];
    [ intros r Hr; unfold Index.registrations; fold g;
      apply elem_of_app; now left
    | exact Hvalid |].
  destruct Hvalid as (Hnd & _ & Hdeps).
  split; [exact Hcp |]. split; [exact Hpp |].
  intros r Hr Hrp.
  assert (Hlast : createdBefore order (urn (Gke.provider g)) (regUrn r)).
  { apply Hdeps; [exact Hr |]. unfold dependencies. rewrite Hrp.
    rewrite !elem_of_app. right; right. apply list_elem_of_here. }
  assert (Hpool_r : createdBefore order (urn (Gke.nodePool g)) (regUrn r))
    by (eapply createdBefore_trans; eassumption).
  split; [exact Hpool_r |].
  eapply createdBefore_trans; eassumption.
Qed.

(** C4 on the program as written, with [filesVolumeSize = 1024], for the
    order of its registrations. *)
Lemma provider_waits_for_node_pool_witness :
  Samples.config !! "filesVolumeSize" = Some (Gke.ConfigNumber 1024)
  /\ exists p,
       Index.main Samples.config ∅ = inr p
       /\ validOrder (Index.registrations p) Samples.registrationOrder
       /\ createdBefore Samples.registrationOrder
            (urn (Gke.nodePool (Index.gkeCluster p)))
            (urn (Gke.provider (Index.gkeCluster p))).
Proof.
  split; [reflexivity |].
  destruct (provider_waits_for_node_pool Samples.config ∅ 1024 eq_refl)
    as (p & Hmain & _ & _ & _ & Horder).
  exists p. split; [exact Hmain |].
  assert (Hvalid : validOrder (Index.registrations p) Samples.registrationOrder).
  { vm_compute in Hmain. injection Hmain as <-.
    apply validOrderb_sound. vm_compute. reflexivity. }
  split; [exact Hvalid |].
  exact (proj1 (proj2 (Horder Samples.registrationOrder Hvalid))).
Defined.

(** C5. The volume and the claim of the storage provisioner carry the same
    storage-class name ("standard"), the claim's [volumeName] is the
    volume's name, and the capacity the claim requests is the capacity of
    the volume: both are the decimal digits of the configured
    [filesVolumeSize] followed by "Gi" (for a size of magnitude at most 2^53,
    which a JavaScript number holds and prints exactly), that size is also
    the size of the file share in gigabytes, and two configurations with
    different sizes give different capacities. *)
Theorem volume_and_claim_agree (config : Gke.Config) (name : string)
    (diskSize : Z) :
  config !! "filesVolumeSize" = Some (Gke.ConfigNumber diskSize) ->
  exists g,
    Gke.new config name = inr g
    /\ pvStorageClassName (args (Gke.persistentVolume g))
       = pvcStorageClassName (args (Gke.persistentVolumeClaim g))
    /\ pvStorageClassName (args (Gke.persistentVolume g)) = "standard"
    /\ pvcVolumeName (args (Gke.persistentVolumeClaim g))
       = nameOf (Gke.persistentVolume g)
    /\ (forall w,
          resolve (pvcVolumeName (args (Gke.persistentVolumeClaim g))) w
          = physicalName w (urn (Gke.persistentVolume g)))
    /\ urn (Gke.persistentVolume g) ∈ inputs (Gke.persistentVolumeClaim g)
    /\ pvcRequestsStorage (args (Gke.persistentVolumeClaim g))
       = pvCapacityStorage (args (Gke.persistentVolume g))
    /\ pvCapacityStorage (args (Gke.persistentVolume g))
       = Gke.gibibytes diskSize
    /\ pvcRequestsStorage (args (Gke.persistentVolumeClaim g))
       = Gke.gibibytes diskSize
    /\ Gke.capacityGb (Gke.fileShares (args (Gke.fileStoreInstance g)))
       = diskSize
    /\ (Z.abs diskSize <= 2 ^ 53 ->
        pvCapacityStorage (args (Gke.persistentVolume g))
        = pretty diskSize +:+ "Gi"
        /\ pvcRequestsStorage (args (Gke.persistentVolumeClaim g))
           = pretty diskSize +:+ "Gi")
    /\ (forall config' name' diskSize' g',
          config' !! "filesVolumeSize" = Some (Gke.ConfigNumber diskSize') ->
          Gke.new config' name' = inr g' ->
          Z.abs diskSize <= 2 ^ 53 -> Z.abs diskSize' <= 2 ^ 53 ->
          pvcRequestsStorage (args (Gke.persistentVolumeClaim g'))
          = pvCapacityStorage (args (Gke.persistentVolume g)) ->
          diskSize' = diskSize).
Proof.
  intros Hcfg. unfold Gke.new, Gke.requireNumber. rewrite Hcfg.
  cbn [Js.bind Js.ret]. eexists. split; [reflexivity |]. cbn.
  repeat (split; [reflexivity |]).
  split; [apply list_elem_of_here |].
  repeat (split; [reflexivity |]).
  split; [intros _; split; reflexivity |].
  intros config' name' diskSize' g' Hcfg' Hg' _ _.
  unfold Gke.new, Gke.requireNumber in Hg'. rewrite Hcfg' in Hg'.
  cbn [Js.bind Js.ret] in Hg'. injection Hg' as <-. cbn.
  unfold Gke.gibibytes. intros Heq.
  apply append_suffix_inj in Heq. now apply (inj pretty) in Heq.
Qed.

Example capacity_2048 :
  match Gke.new {[ "filesVolumeSize" := Gke.ConfigNumber 2048 ]} "multicloud" with
  | inr g =>
      pvCapacityStorage (args (Gke.persistentVolume g)) = "2048Gi"
      /\ pvcRequestsStorage (args (Gke.persistentVolumeClaim g)) = "2048Gi"
  | inl _ => False
  end.
Proof. split; reflexivity. Qed.

(** C5 at [filesVolumeSize = 1024]. *)
Lemma volume_and_claim_agree_witness :
  Samples.config !! "filesVolumeSize" = Some (Gke.ConfigNumber 1024)
  /\ exists g,
       Gke.new Samples.config "multicloud" = inr g
       /\ pvcRequestsStorage (args (Gke.persistentVolumeClaim g))
          = pvCapacityStorage (args (Gke.persistentVolume g))
       /\ pvCapacityStorage (args (Gke.persistentVolume g)) = "1024Gi".
Proof.
  split; [reflexivity |].
  destruct (volume_and_claim_agree Samples.config "multicloud" 1024 eq_refl)
    as (g & Hnew & _ & _ & _ & _ & _ & Hsame & _ & _ & _ & Hdigits & _).
  exists g. split; [exact Hnew |]. split; [exact Hsame |].
  rewrite (proj1 (Hdigits ltac:(vm_compute; discriminate))). reflexivity.
Defined.

End GkeCluster.

(** ** The exported URL list *)

Section Orchestration.
Import Pulumi K8s AppCommon.

(** C8, as stated, fails: with two targets of which the second resolves
    first, the list is still in the order of declaration, not in the order
    of completion. *)
Lemma appUrls_not_in_completion_order :
  exists urls instances,
    Index.deploy ∅ Samples.twoClusters [] [] = inr (urls, instances)
    /\ map Index.urlName urls = ["gke"; "eks"]
    /\ map Index.urlName (Spec.completionOrder Samples.eksFirst urls)
       = ["eks"; "gke"]
    /\ map Index.urlName urls
       <> map Index.urlName (Spec.completionOrder Samples.eksFirst urls).
Proof.
  eexists. eexists. split; [vm_compute; reflexivity |].
  split; [reflexivity |]. split; [reflexivity |].
  cbn. discriminate.
Qed.

(** C8, amended. For every list of configured targets the loop ends without
    error and exports one {name, URL} pair per target, in the order in which
    the targets are declared: the list is built while the program runs, and
    only the URL inside each pair is deferred. For the program as written
    this is the single pair of "gke". *)
Theorem appUrls_in_declaration_order (processEnv : Env)
    (clusters : list Index.Cluster) :
  (exists urls instances,
     Index.deploy processEnv clusters [] [] = inr (urls, instances)
     /\ map Index.urlName urls = map Index.name clusters
     /\ List.length urls = List.length clusters
     /\ List.length instances = List.length clusters
     /\ urls
        = map (fun c =>
                 {| Index.urlName := Index.name c;
                    Index.url :=
                      AppCommon.appUrl (Index.name c)
                        (AppCommon.service processEnv (Index.name c)
                           (urn (Index.provider c)) (Index.staticAppIP c)
                           (mkUrn DemoAppComponent (Index.name c))) |})
              clusters)
  /\ (forall config p,
        Index.main config processEnv = inr p ->
        map Index.urlName (Index.appUrls p) = ["gke"]).
Proof.
  split.
  - destruct (deploy_appends processEnv clusters [] []) as (instances & Hd & Hlen).
    eexists. exists instances. split; [exact Hd |].
    cbn [app]. split; [| split; [| split]].
    + rewrite map_map. reflexivity.
    + now rewrite length_map.
    + exact Hlen.
    + reflexivity.
  - intros config p. unfold Index.main.
    destruct (Gke.new config "multicloud") as [e | g]; [discriminate |].
    cbn [Js.bind].
    destruct (deploy_appends processEnv (Index.clusters g) [] [])
      as (instances & -> & _).
    cbn. now intros [= <-].
Qed.

End Orchestration.

(** * Further properties of the code *)

(** ** More on the container port *)

Section ContainerPortEdges.
Import Pulumi K8s AppCommon Js Spec.

(** X1. Whatever the process environment, the container port is never 0:
    a [PORT] that reads as 0 falls back to 3000 like an unreadable one. *)
Theorem APP_PORT_never_zero (processEnv : Env) : APP_PORT processEnv <> 0.
Proof.
  unfold APP_PORT.
  destruct (parseInt (processEnv !! "PORT")) as [[| n | n] |]; cbn; lia.
Qed.

(** X2. The port is not checked against a range: a [PORT] that is a minus
    sign followed by a decimal numeral other than zero gives the negative
    number as the container port. *)
Theorem APP_PORT_negative (processEnv : Env) (s : string) :
  processEnv !! "PORT" = Some (String "-" s) ->
  isNumeral s = true ->
  numeralValue s <> 0 ->
  numeralValue s <= 2 ^ 53 ->
  APP_PORT processEnv = - numeralValue s.
Proof.
  intros Hport Hs Hnz _. unfold APP_PORT.
  rewrite Hport, (parseInt_minus_numeral s Hs).
  apply orElse_nonzero. lia.
Qed.

(** X2 at [PORT=-5]. *)
Lemma APP_PORT_negative_witness :
  APP_PORT {[ "PORT" := "-5" ]} = -5.
Proof.
  exact (APP_PORT_negative {[ "PORT" := "-5" ]} "5" eq_refl eq_refl
           ltac:(vm_compute; discriminate) ltac:(vm_compute; discriminate)).
Defined.

Example APP_PORT_hex : APP_PORT {[ "PORT" := "0x1F" ]} = 31.
Proof. reflexivity. Qed.

(** X3. Text after the number is ignored: a [PORT] that is a decimal numeral
    other than zero followed by any text that starts with a character other
    than a digit, "x" and "X" gives the number of the numeral. *)
Theorem APP_PORT_trailing_text_ignored (processEnv : Env) (s : string)
    (c : ascii) (rest : string) :
  processEnv !! "PORT" = Some (s +:+ String c rest) ->
  isNumeral s = true ->
  isDigit c = false -> c <> "x"%char -> c <> "X"%char ->
  numeralValue s <> 0 ->
  numeralValue s <= 2 ^ 53 ->
  APP_PORT processEnv = numeralValue s.
Proof.
  intros Hport Hs Hc Hx HX Hnz _. unfold APP_PORT.
  rewrite Hport, (parseInt_numeral_then_text s c rest Hs Hc Hx HX).
  now apply orElse_nonzero.
Qed.

(** X3 at [PORT=8080/tcp]. *)
Lemma APP_PORT_trailing_text_ignored_witness :
  APP_PORT {[ "PORT" := "8080/tcp" ]} = 8080.
Proof.
  exact (APP_PORT_trailing_text_ignored {[ "PORT" := "8080/tcp" ]}
           "8080" "/" "tcp" eq_refl eq_refl eq_refl
           ltac:(discriminate) ltac:(discriminate)
           ltac:(vm_compute; discriminate) ltac:(vm_compute; discriminate)).
Defined.

(** X4. White space before the value is ignored: putting one of the white
    space code points in front of [PORT] does not change the container
    port. *)
Theorem APP_PORT_leading_white_space (processEnv : Env) (w s : string) :
  w ∈ whiteSpace ->
  APP_PORT (<["PORT" := w +:+ s]> processEnv)
  = APP_PORT (<["PORT" := s]> processEnv).
Proof.
  intros Hw. unfold APP_PORT. rewrite !lookup_insert_eq.
  unfold parseInt. cbn [toString]. now rewrite (trimStart_white_space w s Hw).
Qed.

(** X4 with a space in front of 8080. *)
Lemma APP_PORT_leading_white_space_witness :
  APP_PORT (<["PORT" := " 8080"]> ∅) = 8080.
Proof.
  exact (eq_trans
           (APP_PORT_leading_white_space ∅ " " "8080"
              ltac:(apply (bool_decide_unpack _); vm_compute; exact I))
           eq_refl).
Defined.

End ContainerPortEdges.

(** ** The workload and its service *)

Section WorkloadShape.
Import Pulumi K8s AppCommon.

(** X5. In both revisions of the component the service forwards to the port
    the container listens on: the [targetPort] of the service and the
    [containerPort] of the container are the same [APP_PORT], the container
    port is named "http", and both probes address the port "http", a name
    the container declares. *)
Theorem service_targets_container_port (processEnv : Env) (name : string) :
  (forall args,
     let app := App.new processEnv name args in
     map targetPort (servicePorts (Pulumi.args (App.service app)))
     = flat_map (fun c => map containerPort (ports c))
         (containers (podSpec (Pulumi.args (App.deployment app))))
     /\ Forall (fun c =>
                  httpGetPort (K8s.livenessProbe c) ∈ map portName (ports c)
                  /\ httpGetPort (K8s.readinessProbe c) ∈ map portName (ports c))
          (containers (podSpec (Pulumi.args (App.deployment app))))
     /\ map targetPort (servicePorts (Pulumi.args (App.service app)))
        = [ APP_PORT processEnv ]
     /\ map ports (containers (podSpec (Pulumi.args (App.deployment app))))
        = [ [ {| containerPort := APP_PORT processEnv; portName := "http" |} ] ]
     /\ map (fun c => (httpGetPort (K8s.livenessProbe c),
                       httpGetPort (K8s.readinessProbe c)))
          (containers (podSpec (Pulumi.args (App.deployment app))))
        = [ ("http", "http") ])
  /\ (forall prov tag staticIP claim,
        exists app,
          AppStorage.new processEnv name
            {| AppStorage.provider := prov; AppStorage.imageTag := tag;
               AppStorage.staticAppIP := staticIP;
               AppStorage.pvc := Some claim |} = inr app
          /\ map targetPort (servicePorts (Pulumi.args (AppStorage.service app)))
             = flat_map (fun c => map containerPort (ports c))
                 (containers (podSpec (Pulumi.args (AppStorage.deployment app))))
          /\ Forall (fun c =>
                       httpGetPort (K8s.livenessProbe c)
                       ∈ map portName (ports c)
                       /\ httpGetPort (K8s.readinessProbe c)
                          ∈ map portName (ports c))
               (containers (podSpec (Pulumi.args (AppStorage.deployment app))))
          /\ map targetPort (servicePorts (Pulumi.args (AppStorage.service app)))
             = [ APP_PORT processEnv ]
          /\ map ports
               (containers (podSpec (Pulumi.args (AppStorage.deployment app))))
             = [ [ {| containerPort := APP_PORT processEnv;
                      portName := "http" |} ] ]
          /\ map (fun c => (httpGetPort (K8s.livenessProbe c),
                            httpGetPort (K8s.readinessProbe c)))
               (containers (podSpec (Pulumi.args (AppStorage.deployment app))))
             = [ ("http", "http") ]).
Proof.
  split.
  - intros args app. split; [reflexivity |].
    split; [repeat constructor |]. repeat split; reflexivity.
  - intros prov tag staticIP claim. eexists. split; [reflexivity |].
    split; [reflexivity |]. split; [repeat constructor |].
    repeat split; reflexivity.
Qed.

(** X6. In both revisions the service selects the pods of the deployment:
    its selector, the labels of the pod template and the label selector of
    the deployment are the same. In the storage-aware revision every volume
    mount of a container names a volume of the pod. *)
Theorem service_selects_deployment_pods (processEnv : Env) (name : string) :
  (forall args,
     let app := App.new processEnv name args in
     selector (Pulumi.args (App.service app))
     = templateLabels (Pulumi.args (App.deployment app))
     /\ matchLabels (Pulumi.args (App.deployment app))
        = templateLabels (Pulumi.args (App.deployment app)))
  /\ (forall prov tag staticIP claim,
        exists app,
          AppStorage.new processEnv name
            {| AppStorage.provider := prov; AppStorage.imageTag := tag;
               AppStorage.staticAppIP := staticIP;
               AppStorage.pvc := Some claim |} = inr app
          /\ selector (Pulumi.args (AppStorage.service app))
             = templateLabels (Pulumi.args (AppStorage.deployment app))
          /\ matchLabels (Pulumi.args (AppStorage.deployment app))
             = templateLabels (Pulumi.args (AppStorage.deployment app))
          /\ Forall (fun c =>
                       Forall (fun m =>
                                 mountName m
                                 ∈ map volName
                                     (volumes (podSpec
                                        (Pulumi.args (AppStorage.deployment app)))))
                              (volumeMounts c))
               (containers (podSpec (Pulumi.args (AppStorage.deployment app))))).
Proof.
  split.
  - intros args app. split; reflexivity.
  - intros prov tag staticIP claim. eexists. split; [reflexivity |].
    split; [reflexivity |]. split; [reflexivity |]. repeat constructor.
Qed.

(** X7. The autoscaler scales the deployment of its own component: its
    target is a Deployment of apps/v1 whose name is, in every world, the name
    the deployment received; the replica count of the deployment lies between
    its bounds; and since the target name is an output of the deployment, the
    deployment is created before the autoscaler in every creation order. *)
Theorem hpa_targets_own_deployment (processEnv : Env) (name : string)
    (args : AppStorage.DemoAppArgs)
    (claim : Resource PersistentVolumeClaimArgs) :
  AppStorage.pvc args = Some claim ->
  exists app,
    AppStorage.new processEnv name args = inr app
    /\ targetApiVersion (Pulumi.args (AppStorage.hpa app)) = "apps/v1"
    /\ targetKind (Pulumi.args (AppStorage.hpa app)) = "Deployment"
    /\ (forall w,
          resolve (targetName (Pulumi.args (AppStorage.hpa app))) w
          = resolve (nameOf (AppStorage.deployment app)) w)
    /\ minReplicas (Pulumi.args (AppStorage.hpa app))
       <= replicas (Pulumi.args (AppStorage.deployment app))
       <= maxReplicas (Pulumi.args (AppStorage.hpa app))
    /\ (forall regs order,
          register (AppStorage.hpa app) ∈ regs ->
          validOrder regs order ->
          createdBefore order (urn (AppStorage.deployment app))
                              (urn (AppStorage.hpa app))).
Proof.
  destruct args as [prov tag staticIP pvc]. cbn. intros ->.
  eexists. split; [reflexivity |].
  split; [reflexivity |]. split; [reflexivity |]. split; [reflexivity |].
  split; [cbn; lia |].
  intros regs order Hreg (_ & _ & Hdeps).
  apply (Hdeps _ _ Hreg). apply list_elem_of_here.
Qed.

(** X7 at the sample arguments. *)
Lemma hpa_targets_own_deployment_witness :
  AppStorage.pvc Samples.storageArgs = Some Samples.claim
  /\ exists app,
       AppStorage.new ∅ "gke" Samples.storageArgs = inr app
       /\ resolve (targetName (Pulumi.args (AppStorage.hpa app))) Samples.world
          = resolve (nameOf (AppStorage.deployment app)) Samples.world.
Proof.
  split; [reflexivity |].
  destruct (hpa_targets_own_deployment ∅ "gke" Samples.storageArgs
              Samples.claim eq_refl)
    as (app & Hnew & _ & _ & Hname & _).
  exists app. split; [exact Hnew | exact (Hname Samples.world)].
Defined.

End WorkloadShape.

(** ** What the URL reads *)

Section UrlInputs.
Import Pulumi K8s AppCommon.

(** X8. The URL of a target reads the world only through the first
    load-balancer ingress entry of the target's own service: two worlds that
    agree on that entry give the same URL, and the only resource the URL
    waits for is that service. *)
Theorem appUrl_reads_own_first_ingress (name : string)
    (svc : Resource ServiceArgs) (w1 w2 : World) :
  loadBalancerIngress w1 (urn svc) !! 0%nat
  = loadBalancerIngress w2 (urn svc) !! 0%nat ->
  resolve (AppCommon.appUrl name svc) w1 = resolve (AppCommon.appUrl name svc) w2
  /\ Forall (fun r => r = urn svc) (resources (AppCommon.appUrl name svc)).
Proof.
  intros Hsame. split.
  - rewrite !appUrl_resolve. f_equal. f_equal.
    unfold address.
    destruct (bool_decide (name = "gke") || bool_decide (name = "aks"));
      cbn [resolve ingressField]; now rewrite Hsame.
  - unfold AppCommon.appUrl, interpolate2, applyOut, all2, address.
    destruct (bool_decide (name = "gke") || bool_decide (name = "aks"));
      cbn; repeat constructor.
Qed.

(** X8 for two worlds that differ in all but the ingress. *)
Lemma appUrl_reads_own_first_ingress_witness :
  resolve (App.appUrl (App.new ∅ "gke" Samples.appArgs)) Samples.world
  = resolve (App.appUrl (App.new ∅ "gke" Samples.appArgs))
      {| physicalName := fun _ => "other";
         loadBalancerIngress :=
           fun _ => [ {| hostname := Some "lb.example.com"; ip := Some "10.0.0.5" |};
                      {| hostname := None; ip := Some "10.0.0.6" |} ];
         filestoreNetworks := fun _ => [];
         clusterEndpoint := fun _ => "";
         clusterLocation := fun _ => "";
         clusterCaCertificate := fun _ => "";
         passwordResult := fun _ => "";
         latestMasterVersion := "";
         gcpProject := None;
         gcpZone := None |}.
Proof.
  exact (proj1 (appUrl_reads_own_first_ingress "gke"
                  (App.service (App.new ∅ "gke" Samples.appArgs))
                  Samples.world _ eq_refl)).
Defined.

(** X9. There is no fall-back between the two fields. When the field chosen
    for the target's name is missing from the first ingress entry, or the
    cluster reports no ingress entry, the URL of the component reads
    "http://undefined:80", whatever the other field holds. *)
Theorem appUrl_without_fallback (processEnv : Env) (name : string)
    (args : App.DemoAppArgs) (w : World) :
  let svc := App.service (App.new processEnv name args) in
  let url := resolve (App.appUrl (App.new processEnv name args)) w in
  (loadBalancerIngress w (urn svc) = [] -> url = "http://undefined:80")
  /\ (forall i rest,
        loadBalancerIngress w (urn svc) = i :: rest ->
        (name = "gke" \/ name = "aks") -> ip i = None ->
        url = "http://undefined:80")
  /\ (forall i rest,
        loadBalancerIngress w (urn svc) = i :: rest ->
        ~ (name = "gke" \/ name = "aks") -> hostname i = None ->
        url = "http://undefined:80").
Proof.
  intros svc url. unfold url, App.new. cbn [App.appUrl].
  rewrite service_appUrl. fold (App.new processEnv name args).
  change (AppCommon.service processEnv name (App.provider args)
            (App.staticAppIP args) (mkUrn DemoAppComponent name)) with svc.
  split; [| split].
  - intros Hnone. unfold address.
    destruct (bool_decide (name = "gke") || bool_decide (name = "aks"));
      cbn [resolve ingressField]; now rewrite Hnone.
  - intros i rest Hi Hname Hip. rewrite (address_ip name svc Hname).
    cbn [resolve ingressField]. rewrite Hi. cbn. now rewrite Hip.
  - intros i rest Hi Hname Hhost. rewrite (address_hostname name svc Hname).
    cbn [resolve ingressField]. rewrite Hi. cbn. now rewrite Hhost.
Qed.

(** X9 for a target named "gke" whose load balancer reports a host name
    only. *)
Lemma appUrl_without_fallback_witness :
  resolve (App.appUrl (App.new ∅ "gke" Samples.appArgs)) Samples.hostnameWorld
  = "http://undefined:80".
Proof.
  exact (proj1 (proj2 (appUrl_without_fallback ∅ "gke" Samples.appArgs
                         Samples.hostnameWorld))
           {| hostname := Some "lb.example.com"; ip := None |} []
           eq_refl (or_introl eq_refl) eq_refl).
Defined.

End UrlInputs.

(** ** The loop over the targets *)

Section DeployLoop.
Import Pulumi K8s AppCommon.

Lemma deploy_instances processEnv clusters : forall appUrls instances,
  exists urls' instances',
    Index.deploy processEnv clusters appUrls instances
    = inr ((appUrls ++ urls')%list, (instances ++ instances')%list)
    /\ Forall2 (fun c app =>
                  AppStorage.new processEnv (Index.name c)
                    {| AppStorage.provider := urn (Index.provider c);
                       AppStorage.imageTag := Index.appImageTag processEnv;
                       AppStorage.staticAppIP := Index.staticAppIP c;
                       AppStorage.pvc := Some (Index.pvc c) |} = inr app)
               clusters instances'
    /\ Forall2 (fun app u =>
                  Index.url u = AppStorage.appUrl app)
               instances' urls'.
Proof.
  induction clusters as [|c rest IH]; intros appUrls instances.
  - exists [], []. cbn. rewrite !app_nil_r. repeat split; constructor.
  - cbn [Index.deploy].
    destruct (AppStorage_new_claim processEnv (Index.name c)
                (urn (Index.provider c)) (Index.appImageTag processEnv)
                (Index.staticAppIP c) (Index.pvc c)) as [app Happ].
    rewrite Happ. cbn [Js.bind].
    edestruct IH as (urls' & instances' & -> & Hnew & Hurl).
    eexists (_ :: urls'), (app :: instances').
    rewrite <- !app_assoc. split; [reflexivity |].
    split; constructor; try assumption. reflexivity.
Qed.

(** X10. Every workload the loop deploys runs the image
    "docker.io/diavrank/scaffold-meteor-vue" with the tag [IMAGE_TAG] of the
    process environment, and with the tag "latest" when [IMAGE_TAG] is unset
    or empty; the tag is never empty. *)
Theorem deployed_image_tag (processEnv : Env) (clusters : list Index.Cluster) :
  (exists urls instances,
     Index.deploy processEnv clusters [] [] = inr (urls, instances)
     /\ Forall (fun app =>
                  map image
                    (containers (podSpec (Pulumi.args (AppStorage.deployment app))))
                  = [ "docker.io/diavrank/scaffold-meteor-vue:"
                      +:+ Index.appImageTag processEnv ])
          instances)
  /\ Index.appImageTag processEnv <> ""
  /\ (processEnv !! "IMAGE_TAG" = None -> Index.appImageTag processEnv = "latest")
  /\ (processEnv !! "IMAGE_TAG" = Some "" -> Index.appImageTag processEnv = "latest")
  /\ (forall tag, processEnv !! "IMAGE_TAG" = Some tag -> tag <> "" ->
                  Index.appImageTag processEnv = tag).
Proof.
  split; [| split; [| split; [| split]]].
  - destruct (deploy_instances processEnv clusters [] [])
      as (urls & instances & Hd & Hnew & _).
    exists urls, instances. split; [exact Hd |].
    clear Hd. induction Hnew as [|c app cs apps Hc _ IH]; constructor;
      [| exact IH].
    apply AppStorage_new_inv in Hc as (claim & _ & ->). reflexivity.
  - unfold Index.appImageTag.
    destruct (processEnv !! "IMAGE_TAG") as [[|a t] |]; discriminate.
  - unfold Index.appImageTag. now intros ->.
  - unfold Index.appImageTag. now intros ->.
  - unfold Index.appImageTag. intros tag -> Hne.
    destruct tag; [congruence | reflexivity].
Qed.

(** X11. The loop binds each workload to its own target: the deployment and
    the service of the i-th component carry the provider of the i-th target,
    the volume of the workload is the claim of that target, the static
    address of the service is the one of that target, and the exported URL is
    the URL of that component. *)
Theorem deploy_binds_each_target (processEnv : Env)
    (clusters : list Index.Cluster) :
  exists urls instances,
    Index.deploy processEnv clusters [] [] = inr (urls, instances)
    /\ Forall2 (fun c app =>
                  provider (opts (AppStorage.deployment app))
                  = Some (urn (Index.provider c))
                  /\ provider (opts (AppStorage.service app))
                     = Some (urn (Index.provider c))
                  /\ map claimName
                       (volumes (podSpec (Pulumi.args (AppStorage.deployment app))))
                     = [ nameOf (Index.pvc c) ]
                  /\ urn (Index.pvc c) ∈ inputs (AppStorage.deployment app)
                  /\ loadBalancerIP (Pulumi.args (AppStorage.service app))
                     = Index.staticAppIP c)
               clusters instances
    /\ Forall2 (fun app u => Index.url u = AppStorage.appUrl app) instances urls.
Proof.
  destruct (deploy_instances processEnv clusters [] [])
    as (urls & instances & Hd & Hnew & Hurl).
  exists urls, instances. split; [exact Hd |]. split; [| exact Hurl].
  clear Hd Hurl. induction Hnew as [|c app cs apps Hc _ IH]; constructor;
    [| exact IH].
  apply AppStorage_new_inv in Hc as (claim & [= <-] & ->).
  repeat split; try reflexivity. apply list_elem_of_here.
Qed.

(** X17. The deployments and the services of two components have the same
    identity only if the targets have the same name, whereas their
    autoscalers always have the same identity: when the loop runs over two or
    more targets, the identities it registers are not distinct. *)
Theorem two_targets_share_hpa (processEnv : Env) (c1 c2 : Index.Cluster)
    (rest : list Index.Cluster) :
  exists urls instances,
    Index.deploy processEnv (c1 :: c2 :: rest) [] [] = inr (urls, instances)
    /\ ~ NoDup (map regUrn (flat_map AppStorage.registrations instances))
    /\ (forall a1 a2, a1 ∈ instances -> a2 ∈ instances ->
                      urn (AppStorage.hpa a1) = urn (AppStorage.hpa a2))
    /\ (forall n1 n2 args1 args2 a1 a2,
          AppStorage.new processEnv n1 args1 = inr a1 ->
          AppStorage.new processEnv n2 args2 = inr a2 ->
          (urn (AppStorage.deployment a1) = urn (AppStorage.deployment a2)
           <-> n1 = n2)
          /\ (urn (AppStorage.service a1) = urn (AppStorage.service a2)
              <-> n1 = n2)).
Proof.
  destruct (deploy_instances processEnv (c1 :: c2 :: rest) [] [])
    as (urls & instances & Hd & Hnew & _).
  exists urls, instances. split; [exact Hd |].
  assert (Hhpa : forall a, a ∈ instances ->
            urn (AppStorage.hpa a)
            = mkUrn HorizontalPodAutoscaler "scaffold-app-hpa").
  { intros a Ha. apply list_elem_of_lookup in Ha as [i Hi].
    destruct (Forall2_lookup_r _ _ _ _ _ Hnew Hi) as (c & _ & Hc).
    apply AppStorage_new_inv in Hc as (claim & _ & ->). reflexivity. }
  split; [| split].
  - inversion Hnew as [| ? a1 ? apps1 H1 Htail]; subst.
    inversion Htail as [| ? a2 ? apps2 H2 _]; subst.
    cbn [flat_map AppStorage.registrations map app register
         registerComponent regUrn].
    rewrite (Hhpa a1), (Hhpa a2);
      [| apply list_elem_of_further, list_elem_of_here | apply list_elem_of_here].
    intros Hnd. do 2 apply NoDup_cons in Hnd as [_ Hnd].
    apply NoDup_cons in Hnd as [Hnotin _].
    apply Hnotin. do 3 apply list_elem_of_further. apply list_elem_of_here.
  - intros a1 a2 H1 H2. now rewrite (Hhpa a1 H1), (Hhpa a2 H2).
  - intros n1 n2 args1 args2 a1 a2 H1 H2.
    apply AppStorage_new_inv in H1 as (claim1 & _ & ->).
    apply AppStorage_new_inv in H2 as (claim2 & _ & ->).
    cbn [AppStorage.deployment AppStorage.service urn AppCommon.service].
    split; (split; [intros [= H]; now apply append_suffix_inj in H
                   | now intros ->]).
Qed.

Example two_targets_identities :
  match Index.deploy ∅ Samples.twoClusters [] [] with
  | inr (_, instances) =>
      map regUrn (flat_map AppStorage.registrations instances)
      = [ mkUrn DemoAppComponent "gke";
          mkUrn Deployment "gke-scaffold-app";
          mkUrn HorizontalPodAutoscaler "scaffold-app-hpa";
          mkUrn Service "gke-scaffold-app";
          mkUrn DemoAppComponent "eks";
          mkUrn Deployment "eks-scaffold-app";
          mkUrn HorizontalPodAutoscaler "scaffold-app-hpa";
          mkUrn Service "eks-scaffold-app" ]
  | inl _ => False
  end.
Proof. reflexivity. Qed.

End DeployLoop.

(** ** The program as a whole *)

Section Program.
Import Pulumi K8s AppCommon.

Lemma edgeb_sound regs order x y :
  Graph.edgeb regs x y = true ->
  validOrder regs order -> createdBefore order x y.
Proof.
  unfold Graph.edgeb. intros H (_ & _ & Hdeps).
  apply existsb_exists in H as (r & Hr & H).
  apply andb_prop in H as [Hy Hx].
  apply bool_decide_eq_true in Hy. apply bool_decide_eq_true in Hx.
  subst y. apply Hdeps; [now apply list_elem_of_In | exact Hx].
Qed.

Lemma main_shape config processEnv p :
  Index.main config processEnv = inr p ->
  Index.registrations p = Graph.programRegistrations
  /\ urn (Gke.fileStoreInstance (Index.gkeCluster p))
     = mkUrn FilestoreInstance "nfs-instance"
  /\ urn (Gke.persistentVolume (Index.gkeCluster p))
     = mkUrn PersistentVolume "app-pv"
  /\ urn (Gke.persistentVolumeClaim (Index.gkeCluster p))
     = mkUrn PersistentVolumeClaim "app-pvc"
  /\ urn (Gke.password (Index.gkeCluster p)) = mkUrn RandomPassword "password"
  /\ urn (Gke.cluster (Index.gkeCluster p)) = mkUrn ContainerCluster "cluster"
  /\ map (fun app => urn (AppStorage.deployment app)) (Index.instances p)
     = [ mkUrn Deployment "gke-scaffold-app" ].
Proof.
  unfold Index.main, Gke.new, Gke.requireNumber.
  destruct (config !! "filesVolumeSize") as [[diskSize | s] |];
    [| discriminate | discriminate].
  cbn. intros [= <-]. repeat split; reflexivity.
Qed.

Example main_accepts_any_number :
  match Index.main {[ "filesVolumeSize" := Gke.ConfigNumber (-5) ]} ∅ with
  | inr p =>
      pvCapacityStorage (args (Gke.persistentVolume (Index.gkeCluster p)))
      = "-5Gi"
  | inl _ => False
  end.
Proof. reflexivity. Qed.

(** X13. The program is built exactly when the configuration holds a number
    under "filesVolumeSize". Without the key it ends with a missing-key error
    and with a value that is not a number it ends with a type error, in both
    cases before anything is registered; with any number, of any sign, it is
    built. *)
Theorem main_requires_volume_size (config : Gke.Config) (processEnv : Env) :
  (config !! "filesVolumeSize" = None ->
   Index.main config processEnv = inl (Js.ConfigMissingError "filesVolumeSize"))
  /\ (forall s, config !! "filesVolumeSize" = Some (Gke.ConfigText s) ->
                Index.main config processEnv
                = inl (Js.ConfigTypeError "filesVolumeSize"))
  /\ (forall diskSize,
        config !! "filesVolumeSize" = Some (Gke.ConfigNumber diskSize) ->
        exists p,
          Index.main config processEnv = inr p
          /\ Gke.capacityGb
               (Gke.fileShares (args (Gke.fileStoreInstance (Index.gkeCluster p))))
             = diskSize)
  /\ ((exists p, Index.main config processEnv = inr p)
      <-> exists diskSize,
            config !! "filesVolumeSize" = Some (Gke.ConfigNumber diskSize)).
Proof.
  split; [| split; [| split]].
  - intros H. unfold Index.main, Gke.new, Gke.requireNumber. now rewrite H.
  - intros s H. unfold Index.main, Gke.new, Gke.requireNumber. now rewrite H.
  - intros diskSize H.
    destruct (main_returns config processEnv diskSize H) as [p Hp].
    exists p. split; [exact Hp |].
    revert Hp. unfold Index.main, Gke.new, Gke.requireNumber. rewrite H.
    cbn. now intros [= <-].
  - split.
    + intros [p Hp]. apply main_inv, Gke_new_inv in Hp as (diskSize & H & _).
      now exists diskSize.
    + intros [diskSize H]. exact (main_returns config processEnv diskSize H).
Qed.

(** X14. In every creation order of the program the storage is built bottom
    up: the file store before the volume, the volume before the claim, and
    the claim (hence the volume and the file store) before the deployment
    that mounts it. *)
Theorem storage_before_workload (config : Gke.Config) (processEnv : Env)
    (diskSize : Z) :
  config !! "filesVolumeSize" = Some (Gke.ConfigNumber diskSize) ->
  exists p,
    Index.main config processEnv = inr p
    /\ forall order,
         validOrder (Index.registrations p) order ->
         createdBefore order
           (urn (Gke.fileStoreInstance (Index.gkeCluster p)))
           (urn (Gke.persistentVolume (Index.gkeCluster p)))
         /\ createdBefore order
              (urn (Gke.persistentVolume (Index.gkeCluster p)))
              (urn (Gke.persistentVolumeClaim (Index.gkeCluster p)))
         /\ Forall (fun app =>
                      createdBefore order
                        (urn (Gke.persistentVolumeClaim (Index.gkeCluster p)))
                        (urn (AppStorage.deployment app))
                      /\ createdBefore order
                           (urn (Gke.fileStoreInstance (Index.gkeCluster p)))
                           (urn (AppStorage.deployment app)))
              (Index.instances p).
Proof.
  intros Hcfg.
  destruct (main_returns config processEnv diskSize Hcfg) as [p Hp].
  exists p. split; [exact Hp |]. intros order Hvalid.
  destruct (main_shape config processEnv p Hp)
    as (Hregs & Hfs & Hpv & Hpvc & _ & _ & Hdep).
  rewrite Hregs in Hvalid. rewrite Hfs, Hpv, Hpvc.
  assert (H1 : createdBefore order (mkUrn FilestoreInstance "nfs-instance")
                 (mkUrn PersistentVolume "app-pv"))
    by (apply (edgeb_sound Graph.programRegistrations); [reflexivity | exact Hvalid]).
  assert (H2 : createdBefore order (mkUrn PersistentVolume "app-pv")
                 (mkUrn PersistentVolumeClaim "app-pvc"))
    by (apply (edgeb_sound Graph.programRegistrations); [reflexivity | exact Hvalid]).
  assert (H3 : createdBefore order (mkUrn PersistentVolumeClaim "app-pvc")
                 (mkUrn Deployment "gke-scaffold-app"))
    by (apply (edgeb_sound Graph.programRegistrations); [reflexivity | exact Hvalid]).
  split; [exact H1 |]. split; [exact H2 |].
  destruct (Index.instances p) as [|app [|app' apps]]; [discriminate | | discriminate].
  injection Hdep as Hdep. constructor; [| constructor]. rewrite Hdep.
  split; [exact H3 |].
  destruct Hvalid as (Hnd & _).
  eapply createdBefore_trans; [exact Hnd | | exact H3].
  eapply createdBefore_trans; eassumption.
Qed.

(** X14 on the program as written, for the order of its registrations. *)
Lemma storage_before_workload_witness :
  Samples.config !! "filesVolumeSize" = Some (Gke.ConfigNumber 1024)
  /\ exists p,
       Index.main Samples.config ∅ = inr p
       /\ validOrder (Index.registrations p) Samples.registrationOrder
       /\ createdBefore Samples.registrationOrder
            (urn (Gke.fileStoreInstance (Index.gkeCluster p)))
            (urn (Gke.persistentVolume (Index.gkeCluster p))).
Proof.
  split; [reflexivity |].
  destruct (storage_before_workload Samples.config ∅ 1024 eq_refl)
    as (p & Hmain & Horder).
  exists p. split; [exact Hmain |].
  assert (Hvalid : validOrder (Index.registrations p) Samples.registrationOrder).
  { rewrite (proj1 (main_shape Samples.config ∅ p Hmain)).
    apply validOrderb_sound. vm_compute. reflexivity. }
  split; [exact Hvalid |].
  exact (proj1 (Horder Samples.registrationOrder Hvalid)).
Defined.

(** X15. The random password the cluster component generates is used by
    nothing: no resource of the program depends on it, and the kubeconfig of
    the provider is the same whatever the password is. *)
Theorem password_is_unused (config : Gke.Config) (processEnv : Env)
    (diskSize : Z) :
  config !! "filesVolumeSize" = Some (Gke.ConfigNumber diskSize) ->
  exists p,
    Index.main config processEnv = inr p
    /\ (forall r, r ∈ Index.registrations p ->
                  urn (Gke.password (Index.gkeCluster p)) ∉ dependencies r)
    /\ (forall w result,
          resolve (kubeconfig (args (Gke.provider (Index.gkeCluster p))))
            {| physicalName := physicalName w;
               loadBalancerIngress := loadBalancerIngress w;
               filestoreNetworks := filestoreNetworks w;
               clusterEndpoint := clusterEndpoint w;
               clusterLocation := clusterLocation w;
               clusterCaCertificate := clusterCaCertificate w;
               passwordResult := result;
               latestMasterVersion := latestMasterVersion w;
               gcpProject := gcpProject w;
               gcpZone := gcpZone w |}
          = resolve (kubeconfig (args (Gke.provider (Index.gkeCluster p)))) w).
Proof.
  intros Hcfg.
  destruct (main_returns config processEnv diskSize Hcfg) as [p Hp].
  exists p. split; [exact Hp |].
  destruct (main_shape config processEnv p Hp) as (Hregs & _ & _ & _ & Hpw & _).
  split.
  - rewrite Hregs, Hpw. apply Forall_forall.
    apply (bool_decide_unpack _). vm_compute. exact I.
  - intros w result. revert Hp.
    unfold Index.main, Gke.new, Gke.requireNumber. rewrite Hcfg.
    cbn. now intros [= <-].
Qed.

(** X15 at [filesVolumeSize = 1024]. *)
Lemma password_is_unused_witness :
  Samples.config !! "filesVolumeSize" = Some (Gke.ConfigNumber 1024)
  /\ exists p,
       Index.main Samples.config ∅ = inr p
       /\ Forall (fun r => urn (Gke.password (Index.gkeCluster p))
                           ∉ dependencies r)
            (Index.registrations p).
Proof.
  split; [reflexivity |].
  destruct (password_is_unused Samples.config ∅ 1024 eq_refl)
    as (p & Hmain & Hunused & _).
  exists p. split; [exact Hmain |]. apply Forall_forall. exact Hunused.
Defined.

(** X16. The program registers twelve resources, the two components and
    the ten resources they create, under twelve different identities. *)
Theorem program_identities_distinct (config : Gke.Config) (processEnv : Env)
    (diskSize : Z) :
  config !! "filesVolumeSize" = Some (Gke.ConfigNumber diskSize) ->
  exists p,
    Index.main config processEnv = inr p
    /\ List.length (Index.registrations p) = 12%nat
    /\ NoDup (map regUrn (Index.registrations p))
    /\ mkUrn GkeClusterComponent "multicloud"
       ∈ map regUrn (Index.registrations p)
    /\ mkUrn DemoAppComponent "gke" ∈ map regUrn (Index.registrations p).
Proof.
  intros Hcfg.
  destruct (main_returns config processEnv diskSize Hcfg) as [p Hp].
  exists p. split; [exact Hp |].
  rewrite (proj1 (main_shape config processEnv p Hp)).
  split; [reflexivity |].
  repeat split; apply (bool_decide_unpack _); vm_compute; exact I.
Qed.

(** X16 at [filesVolumeSize = 1024]. *)
Lemma program_identities_distinct_witness :
  Samples.config !! "filesVolumeSize" = Some (Gke.ConfigNumber 1024)
  /\ exists p,
       Index.main Samples.config ∅ = inr p
       /\ NoDup (map regUrn (Index.registrations p)).
Proof.
  split; [reflexivity |].
  destruct (program_identities_distinct Samples.config ∅ 1024 eq_refl)
    as (p & Hmain & _ & Hnd & _).
  exists p. split; [exact Hmain | exact Hnd].
Defined.

(** X18. The file store, the volume and the claim are registered with no
    option: they have no provider, no parent and no explicit dependency, so
    nothing ties them to the cluster the program creates. There is a creation
    order of the program in which the claim exists before the cluster. *)
Theorem storage_not_tied_to_cluster (config : Gke.Config) (processEnv : Env)
    (diskSize : Z) :
  config !! "filesVolumeSize" = Some (Gke.ConfigNumber diskSize) ->
  exists p,
    Index.main config processEnv = inr p
    /\ opts (Gke.fileStoreInstance (Index.gkeCluster p)) = noOptions
    /\ opts (Gke.persistentVolume (Index.gkeCluster p)) = noOptions
    /\ opts (Gke.persistentVolumeClaim (Index.gkeCluster p)) = noOptions
    /\ exists order,
         validOrder (Index.registrations p) order
         /\ createdBefore order
              (urn (Gke.persistentVolumeClaim (Index.gkeCluster p)))
              (urn (Gke.cluster (Index.gkeCluster p))).
Proof.
  intros Hcfg.
  destruct (main_returns config processEnv diskSize Hcfg) as [p Hp].
  exists p. split; [exact Hp |].
  destruct (main_shape config processEnv p Hp)
    as (Hregs & _ & _ & Hpvc & _ & Hcl & _).
  assert (Hopts : opts (Gke.fileStoreInstance (Index.gkeCluster p)) = noOptions
                  /\ opts (Gke.persistentVolume (Index.gkeCluster p)) = noOptions
                  /\ opts (Gke.persistentVolumeClaim (Index.gkeCluster p))
                     = noOptions).
  { revert Hp. unfold Index.main, Gke.new, Gke.requireNumber. rewrite Hcfg.
    cbn. intros [= <-]. repeat split; reflexivity. }
  destruct Hopts as (H1 & H2 & H3).
  split; [exact H1 |]. split; [exact H2 |]. split; [exact H3 |].
  exists Samples.registrationOrder. rewrite Hregs, Hpvc, Hcl. split.
  - apply validOrderb_sound. vm_compute. reflexivity.
  - apply createdBeforeb_sound. vm_compute. reflexivity.
Qed.

(** X18 at [filesVolumeSize = 1024]. *)
Lemma storage_not_tied_to_cluster_witness :
  Samples.config !! "filesVolumeSize" = Some (Gke.ConfigNumber 1024)
  /\ exists p,
       Index.main Samples.config ∅ = inr p
       /\ opts (Gke.persistentVolumeClaim (Index.gkeCluster p)) = noOptions.
Proof.
  split; [reflexivity |].
  destruct (storage_not_tied_to_cluster Samples.config ∅ 1024 eq_refl)
    as (p & Hmain & _ & _ & Hclaim & _).
  exists p. split; [exact Hmain | exact Hclaim].
Defined.

End Program.

(** ** The node pool, the host alias and the exported URL *)

Section ProgramDetails.
Import Pulumi K8s AppCommon.

(** X19. The dedicated node pool belongs to the cluster of its component: it
    names the cluster by the cluster's own name, sits in the cluster's
    location, runs the version the cluster takes as its minimum master
    version, and starts with a node count inside its autoscaling bounds; the
    cluster itself starts with one node and has its default pool removed. *)
Theorem node_pool_matches_cluster (config : Gke.Config) (name : string)
    (diskSize : Z) :
  config !! "filesVolumeSize" = Some (Gke.ConfigNumber diskSize) ->
  exists g,
    Gke.new config name = inr g
    /\ Gke.poolCluster (args (Gke.nodePool g)) = nameOf (Gke.cluster g)
    /\ (forall w, resolve (Gke.poolLocation (args (Gke.nodePool g))) w
                  = clusterLocation w (urn (Gke.cluster g)))
    /\ Gke.poolVersion (args (Gke.nodePool g))
       = Gke.minMasterVersion (args (Gke.cluster g))
    /\ Gke.minNodeCount (args (Gke.nodePool g))
       <= Gke.poolInitialNodeCount (args (Gke.nodePool g))
    /\ Gke.poolInitialNodeCount (args (Gke.nodePool g))
       <= Gke.maxNodeCount (args (Gke.nodePool g))
    /\ Gke.clusterInitialNodeCount (args (Gke.cluster g)) = 1
    /\ Gke.removeDefaultNodePool (args (Gke.cluster g)) = true.
Proof.
  intros Hcfg. unfold Gke.new, Gke.requireNumber. rewrite Hcfg.
  cbn [Js.bind Js.ret]. eexists. split; [reflexivity |]. cbn.
  repeat (split; [reflexivity |]). split; [lia |]. split; [lia |].
  split; reflexivity.
Qed.

(** X19 at [filesVolumeSize = 1024]. *)
Lemma node_pool_matches_cluster_witness :
  Samples.config !! "filesVolumeSize" = Some (Gke.ConfigNumber 1024)
  /\ exists g,
       Gke.new Samples.config "multicloud" = inr g
       /\ Gke.poolVersion (args (Gke.nodePool g))
          = Gke.minMasterVersion (args (Gke.cluster g)).
Proof.
  split; [reflexivity |].
  destruct (node_pool_matches_cluster Samples.config "multicloud" 1024 eq_refl)
    as (g & Hnew & _ & _ & Hversion & _).
  exists g. split; [exact Hnew | exact Hversion].
Defined.

(** X20. The host-alias entry is injected whether or not the address is
    configured: in both revisions the pod has exactly one entry with the three
    host names, whose address is [DATABASE_IP_ADDRESS], undefined when the
    variable is unset. The variable itself is not forwarded to the container:
    it is outside the whitelist, and changing it leaves the forwarded
    environment unchanged. *)
Theorem host_alias_always_injected (processEnv : Env) (name : string) :
  (forall args,
     K8s.hostAliases
       (podSpec (Pulumi.args (App.deployment (App.new processEnv name args))))
     = [ {| aliasIp := processEnv !! "DATABASE_IP_ADDRESS";
            hostnames := ["mongo-primary"; "mongo-secondary"; "mongo-arbiter"] |} ])
  /\ (forall prov tag staticIP claim,
        exists app,
          AppStorage.new processEnv name
            {| AppStorage.provider := prov; AppStorage.imageTag := tag;
               AppStorage.staticAppIP := staticIP;
               AppStorage.pvc := Some claim |} = inr app
          /\ K8s.hostAliases (podSpec (Pulumi.args (AppStorage.deployment app)))
             = [ {| aliasIp := processEnv !! "DATABASE_IP_ADDRESS";
                    hostnames :=
                      ["mongo-primary"; "mongo-secondary"; "mongo-arbiter"] |} ])
  /\ ("DATABASE_IP_ADDRESS" ∉ environmentVariableNames)
  /\ (forall v,
        environmentVariables (<["DATABASE_IP_ADDRESS" := v]> processEnv)
        = environmentVariables processEnv).
Proof.
  assert (Hout : "DATABASE_IP_ADDRESS" ∉ environmentVariableNames)
    by (apply (bool_decide_unpack _); vm_compute; exact I).
  split; [reflexivity |]. split.
  - intros prov tag staticIP claim. eexists. split; reflexivity.
  - split; [exact Hout |]. intros v.
    apply environmentVariables_agree. intros n Hn.
    apply lookup_insert_ne. intros <-. now apply Hout.
Qed.

(** X21. End to end, the program as written exports one pair, named "gke",
    whose URL is, in every world, "http://", the [ip] field of the first
    ingress entry of the service "gke-scaffold-app", and ":80". *)
Theorem program_exports_gke_ip (config : Gke.Config) (processEnv : Env)
    (diskSize : Z) :
  config !! "filesVolumeSize" = Some (Gke.ConfigNumber diskSize) ->
  exists p url,
    Index.main config processEnv = inr p
    /\ Index.appUrls p = [ {| Index.urlName := "gke"; Index.url := url |} ]
    /\ forall w,
         resolve url w
         = "http://"
           +:+ Js.toString
                 (match loadBalancerIngress w (mkUrn Service "gke-scaffold-app")
                        !! 0%nat with
                  | Some i => ip i
                  | None => None
                  end)
           +:+ ":80".
Proof.
  intros Hcfg. unfold Index.main, Gke.new, Gke.requireNumber. rewrite Hcfg.
  cbn [Js.bind Js.ret].
  match goal with
  | |- context [Index.deploy processEnv ?cs [] []] =>
      destruct (deploy_appends processEnv cs [] []) as (instances & -> & _)
  end.
  cbn [Js.bind Js.ret app map Index.clusters Index.name Index.provider
       Index.staticAppIP].
  eexists. eexists. split; [reflexivity |].
  cbn [Index.appUrls]. split; [reflexivity |]. intros w.
  rewrite service_appUrl. reflexivity.
Qed.

(** X21 at [filesVolumeSize = 1024], in the sample world. *)
Lemma program_exports_gke_ip_witness :
  Samples.config !! "filesVolumeSize" = Some (Gke.ConfigNumber 1024)
  /\ exists p url,
       Index.main Samples.config ∅ = inr p
       /\ Index.appUrls p = [ {| Index.urlName := "gke"; Index.url := url |} ]
       /\ resolve url Samples.world = "http://10.0.0.5:80".
Proof.
  split; [reflexivity |].
  destruct (program_exports_gke_ip Samples.config ∅ 1024 eq_refl)
    as (p & url & Hmain & Hurls & Hresolve).
  exists p, url. split; [exact Hmain |]. split; [exact Hurls |].
  exact (Hresolve Samples.world).
Defined.

End ProgramDetails.
